(** * whatsapp_transcriber_go: the transcription dispatch pipeline

    A shallow embedding of the three Go sources of the repository

      - [whatsapp_handler.go]   (the draft that uses the transport's download),
      - [groq_transcriber.go]   (the Groq backend and the draft that downloads
                                 with a plain HTTP GET),
      - the Cloudflare backend  ([CFTranscriber], [CfTranscribe]),

    with the statements of the specification proved, or refuted, on it.

    Go strings are byte strings: they are modelled by [string] (a list of
    8-bit characters).  A Go [error] is modelled by its message. *)

From Stdlib Require Import ZArith NArith String Ascii List DecimalString.
From stdpp Require Import base option list strings gmap.

Set Warnings "-register-all".

(** ** Results and errors *)

Definition error := string.

Inductive Result (A : Type) : Type :=
| Ok (a : A)
| Err (e : error).
Arguments Ok {A} a.
Arguments Err {A} e.

Definition is_ok {A} (r : Result A) : bool :=
  match r with Ok _ => true | Err _ => false end.

(** ** The library functions the sources call

    [strings.TrimSpace], [strings.Split], [filepath.Base] and the [%d] verb
    of [fmt.Sprintf], written out on byte strings. *)

Module GoStrings.

Definition code (c : ascii) : N := N_of_ascii c.

(** The table [asciiSpace] of package [strings]. *)
Definition asciiSpace (c : ascii) : bool :=
  let n := code c in
  ((n =? 9) || (n =? 10) || (n =? 11) || (n =? 12) || (n =? 13) || (n =? 32))%N.

(** [spaceWidth s] is the width in bytes of the white-space rune that [s]
    starts with, and [0] when [s] does not start with one.  The white-space
    runes of [unicode.IsSpace] are the six of [asciiSpace], U+0085, U+00A0,
    U+1680, U+2000 to U+200A, U+2028, U+2029, U+202F, U+205F and U+3000, in
    their UTF-8 encoding. *)
Definition spaceWidth (s : string) : nat :=
  match s with
  | EmptyString => 0
  | String c0 t0 =>
      if asciiSpace c0 then 1
      else match t0 with
      | EmptyString => 0
      | String c1 t1 =>
          let b0 := code c0 in
          let b1 := code c1 in
          if ((b0 =? 194) && ((b1 =? 133) || (b1 =? 160)))%N then 2
          else match t1 with
          | EmptyString => 0
          | String c2 _ =>
              let b2 := code c2 in
              if ((b0 =? 225) && (b1 =? 154) && (b2 =? 128))%N then 3
              else if ((b0 =? 226) && (b1 =? 128) &&
                       (((128 <=? b2) && (b2 <=? 138)) || (b2 =? 168)
                        || (b2 =? 169) || (b2 =? 175)))%N then 3
              else if ((b0 =? 226) && (b1 =? 129) && (b2 =? 159))%N then 3
              else if ((b0 =? 227) && (b1 =? 128) && (b2 =? 128))%N then 3
              else 0
          end
      end
  end.

(** The same, read from the end: the argument is the reversed string. *)
Definition spaceWidthRev (r : string) : nat :=
  match r with
  | EmptyString => 0
  | String c2 t0 =>
      if asciiSpace c2 then 1
      else match t0 with
      | EmptyString => 0
      | String c1 t1 =>
          if spaceWidth (String c1 (String c2 EmptyString)) =? 2 then 2
          else match t1 with
          | EmptyString => 0
          | String c0 _ =>
              if spaceWidth (String c0 (String c1 (String c2 EmptyString))) =? 3
              then 3 else 0
          end
      end
  end%nat.

Fixpoint dropBytes (n : nat) (s : string) : string :=
  match n, s with
  | S n', String _ t => dropBytes n' t
  | _, _ => s
  end.

(** [strings.TrimLeftFunc s unicode.IsSpace]; the fuel is the length. *)
Fixpoint trimLeftFuel (fuel : nat) (s : string) : string :=
  match fuel with
  | O => s
  | S fuel' =>
      match spaceWidth s with
      | O => s
      | w => trimLeftFuel fuel' (dropBytes w s)
      end
  end.

Fixpoint trimRightFuel (fuel : nat) (r : string) : string :=
  match fuel with
  | O => r
  | S fuel' =>
      match spaceWidthRev r with
      | O => r
      | w => trimRightFuel fuel' (dropBytes w r)
      end
  end.

Definition TrimLeft (s : string) : string := trimLeftFuel (String.length s) s.

Definition TrimRight (s : string) : string :=
  String.rev (trimRightFuel (String.length s) (String.rev s)).

(** [strings.TrimSpace]: leading and trailing white space removed. *)
Definition TrimSpace (s : string) : string := TrimRight (TrimLeft s).

(** [strings.Split s "\n"]: the pieces between the line feeds; the empty
    string gives one empty piece. *)
Fixpoint SplitLines (s : string) : list string :=
  match s with
  | EmptyString => [EmptyString]
  | String c t =>
      if (code c =? 10)%N then EmptyString :: SplitLines t
      else match SplitLines t with
           | [] => [String c EmptyString]
           | l :: ls => String c l :: ls
           end
  end.

(** The verb [%d] on an unsigned integer. *)
Definition itoa (n : N) : string := NilZero.string_of_uint (N.to_uint n).

Definition isSlash (c : ascii) : bool := (code c =? 47)%N.

Fixpoint stripSlashes (r : string) : string :=
  match r with
  | String c t => if isSlash c then stripSlashes t else r
  | EmptyString => r
  end.

Fixpoint untilSlash (r : string) : string :=
  match r with
  | String c t => if isSlash c then EmptyString else String c (untilSlash t)
  | EmptyString => EmptyString
  end.

(** [filepath.Base] (Unix): the last element of the path, after the
    trailing separators are removed; ["."] for the empty path and ["/"]
    for a path of separators only. *)
Definition Base (path : string) : string :=
  if decide (path = "") then "."
  else
    let last := String.rev (untilSlash (stripSlashes (String.rev path))) in
    if decide (last = "") then "/" else last.

Definition b64digit (n : N) : ascii :=
  if (n <? 26)%N then ascii_of_N (65 + n)
  else if (n <? 52)%N then ascii_of_N (97 + (n - 26))
  else if (n <? 62)%N then ascii_of_N (48 + (n - 52))
  else if (n =? 62)%N then "+"%char else "/"%char.

(** [base64.StdEncoding.EncodeToString]: three bytes give four digits,
    a last group of one or two bytes is padded with ["="]. *)
Fixpoint base64 (s : string) : string :=
  match s with
  | EmptyString => EmptyString
  | String c0 EmptyString =>
      let n := (code c0 * 65536)%N in
      String (b64digit (n / 262144)) (String (b64digit ((n / 4096) mod 64)) "==")
  | String c0 (String c1 EmptyString) =>
      let n := (code c0 * 65536 + code c1 * 256)%N in
      String (b64digit (n / 262144)) (String (b64digit ((n / 4096) mod 64))
        (String (b64digit ((n / 64) mod 64)) "="))
  | String c0 (String c1 (String c2 t)) =>
      let n := (code c0 * 65536 + code c1 * 256 + code c2)%N in
      String (b64digit (n / 262144)) (String (b64digit ((n / 4096) mod 64))
        (String (b64digit ((n / 64) mod 64)) (String (b64digit (n mod 64)) (base64 t))))
  end.

End GoStrings.
Export GoStrings.


(** ** Data model *)

(** The values [encoding/json] decodes into an [interface{}]. *)
Inductive JSON : Type :=
| JNull
| JBool (b : bool)
| JNumber (literal : string)
| JString (s : string)
| JArray (l : list JSON)
| JObject (m : gmap string JSON).

(** [waProto.AudioMessage]: the fields the sources read. *)
Record AudioMessage : Type := {
  URL : string;
  DirectPath : string;
  MediaKey : string;
  FileLength : N
}.

(** [events.Message]: [Info.ID], [Info.IsGroup] (written [Info.Chat.is.group]
    in groq_transcriber.go), [Info.MediaType], [Info.Sender.User],
    [Info.Chat.ID] and [Message.AudioMessage], which is [nil] or a message. *)
Record Message : Type := {
  Info_ID : string;
  Info_IsGroup : bool;
  Info_MediaType : string;
  Info_Sender_User : string;
  Info_Chat_ID : string;
  Message_AudioMessage : option AudioMessage
}.

Definition GetAudioMessage (evt : Message) : option AudioMessage :=
  Message_AudioMessage evt.

(** What [client.DownloadToFile] hands back in whatsapp_handler.go.  That
    draft copies the value into the temporary file with [io.Copy] and also
    passes it to [TranscribeAudioGroq] as the path and to [%s]: both readings
    are kept. *)
Record Downloaded : Type := {
  dl_stream : string;
  dl_name : string
}.

Inductive Part : Type :=
| FormFile (fieldname filename content : string)
| FormField (fieldname value : string).

Inductive RequestBody : Type :=
| Multipart (parts : list Part)
| JSONPayload (payload : gmap string JSON).

Record Request : Type := {
  Method : string;
  ReqURL : string;
  Header : list (string * string);
  ReqBody : RequestBody
}.

(** An answer: its status and the bytes that are read from its body. *)
Record Response : Type := {
  StatusCode : Z;
  Body : string
}.

Definition StatusOK : Z := 200.

(** [CFTranscriber] of the Cloudflare backend. *)
Record CFTranscriber : Type := {
  AccountID : string;
  APIToken : string;
  Model : string;
  Language : string;
  BaseURL : string
}.

(** An argument of a log line. *)
Inductive Arg : Type :=
| AStr (s : string)
| AErr (e : error)
| AMap (m : gmap string bool).

(** What a run does to the outside, in the order it does it: a plain
    [http.Get], a download through the transport, a request sent with
    [client.Do] under a timeout in seconds, a message sent to a chat, a
    line of [log] and a line of [fmt]. *)
Inductive Effect : Type :=
| EHttpGet (url : string)
| EDownload (msg : option AudioMessage)
| EHttpDo (timeout : Z) (req : Request)
| ESend (chat text : string)
| ELog (format : string) (args : list Arg)
| EPrint (format : string) (args : list Arg).

(** ** The outside world

    Library functions that are not written out ([encoding/json]'s decoder,
    the URL check of [http.NewRequest], [filepath.Join] and [filepath.Dir]). *)
Record GoLib : Type := {
  (** [json.NewDecoder(body).Decode(&result)], [result] a
      [map[string]interface{}]; a [nil] map reads as the empty one. *)
  json_Decode_map : string -> Result (gmap string JSON);
  (** the same into [struct { Text string `json:"text"` }]: the field. *)
  json_Decode_text : string -> Result string;
  (** [http.NewRequest "POST" url body]: the error, if the URL is refused. *)
  NewRequest_err : string -> option error;
  filepath_Join : string -> string -> string;
  filepath_Dir : string -> string
}.

(** The answers of the environment, the network, the transport and the file
    system's failures. *)
Record World : Type := {
  Getenv : string -> string;
  http_Get : string -> Result Response;
  http_Do : Z -> Request -> Result Response;
  DownloadToFile : option AudioMessage -> option Downloaded;
  SendMessage : string -> string -> option error;
  MkdirAll_err : string -> option error;
  Write_err : string -> option error;
  (** the random part [os.CreateTemp] puts in place of the [*] *)
  CreateTemp_rand : string -> string -> string -> Result string;
  (** the boundary [multipart.NewWriter] draws *)
  Boundary : string;
  (** the identifier [data] that line 126 of whatsapp_handler.go writes to
      the saved file; the draft does not declare it *)
  data : string;
  godotenv_Load : option error;
  sqlstore_New : option error;
  GetFirstDevice : option error;
  Connect : option error
}.

(** ** Runs: a file system threaded through, effects collected

    The file system maps a path to the content of the file there. *)

Abbreviation FS := (gmap string string).

Definition M (A : Type) : Type := FS -> A * FS * list Effect.

Definition ret {A} (a : A) : M A := fun fs => (a, fs, []).

Definition bind {A B} (m : M A) (k : A -> M B) : M B :=
  fun fs =>
    let '(a, fs1, t1) := m fs in
    let '(b, fs2, t2) := k a fs1 in
    (b, fs2, t1 ++ t2).

Notation "x <- m ;; k" := (bind m (fun x => k))
  (at level 100, m at next level, right associativity).
Notation "m ;;; k" := (bind m (fun _ => k))
  (at level 100, right associativity).

Definition value {A} (r : A * FS * list Effect) : A := fst (fst r).
Definition final {A} (r : A * FS * list Effect) : FS := snd (fst r).
Definition effects {A} (r : A * FS * list Effect) : list Effect := snd r.

Definition emit (e : Effect) : M unit := fun fs => (tt, fs, [e]).

Definition log_Printf (format : string) (args : list Arg) : M unit :=
  emit (ELog format args).
Definition log_Println (line : string) : M unit := emit (ELog line []).
Definition fmt_Println (line : string) (args : list Arg) : M unit :=
  emit (EPrint line args).

(** [os.ReadFile], [os.WriteFile], [os.Remove] on the file system. *)
Definition os_ReadFile (path : string) : M (Result string) :=
  fun fs =>
    match fs !! path with
    | Some d => (Ok d, fs, [])
    | None => (Err ("open " +:+ path +:+ ": no such file or directory"), fs, [])
    end.

Definition os_Remove (path : string) : M (option error) :=
  fun fs =>
    match fs !! path with
    | Some _ => (None, delete path fs, [])
    | None => (Some ("remove " +:+ path +:+ ": no such file or directory"), fs, [])
    end.

(** [os.WriteFile] and [io.Copy] into a file: the write fails when the world
    says so, and then leaves the file as it was; otherwise the file holds
    the content. *)
Definition os_WriteFile (w : World) (path content : string) : M (option error) :=
  fun fs =>
    match Write_err w path with
    | Some err => (Some err, fs, [])
    | None => (None, <[path := content]> fs, [])
    end.

Definition io_Copy (w : World) (path content : string) : M (option error) :=
  os_WriteFile w path content.

(** [os.CreateTemp dir pattern], the pattern given as the text before and
    after its [*]: an empty file of a fresh name is created. *)
Definition os_CreateTemp (w : World) (dir pre post : string) : M (Result string) :=
  fun fs =>
    match CreateTemp_rand w dir pre post with
    | Err err => (Err err, fs, [])
    | Ok rnd =>
        let name := dir +:+ "/" +:+ pre +:+ rnd +:+ post in
        (Ok name, <[name := ""]> fs, [])
    end.

Definition os_MkdirAll (w : World) (dir : string) : M (option error) :=
  ret (MkdirAll_err w dir).

Definition client_Do (w : World) (timeout : Z) (req : Request) : M (Result Response) :=
  fun fs => (http_Do w timeout req, fs, [EHttpDo timeout req]).

Definition http_get (w : World) (url : string) : M (Result Response) :=
  fun fs => (http_Get w url, fs, [EHttpGet url]).

Definition client_DownloadToFile (w : World) (msg : option AudioMessage)
  : M (option Downloaded) :=
  fun fs => (DownloadToFile w msg, fs, [EDownload msg]).

Definition client_SendMessage (w : World) (chat text : string) : M (option error) :=
  fun fs => (SendMessage w chat text, fs, [ESend chat text]).

(** ** Backend B: [TranscribeAudioGroq] (groq_transcriber.go) *)

Module GroqBackend.
Section Backend.
Context (lib : GoLib) (w : World).

Definition Endpoint : string := "https://api.groq.com/v1/audio/transcriptions".

(** [w.WriteField name value] on the form under construction. *)
Definition WriteField (form : list Part) (fieldname v : string) : list Part :=
  form ++ [FormField fieldname v].

(** [w.CreateFormFile name filename] followed by the write of the bytes;
    neither fails on a [bytes.Buffer]. *)
Definition CreateFormFile (form : list Part) (fieldname filename content : string)
  : list Part :=
  form ++ [FormFile fieldname filename content].

Definition TranscribeAudioGroq (audioPath prompt language : string)
  : M (Result string) :=
  let apiKey := Getenv w "GROQ_API_KEY" in
  if decide (apiKey = "") then ret (Err "GROQ_API_KEY not set in environment")
  else
    fileData <- os_ReadFile audioPath ;;
    match fileData with
    | Err err => ret (Err ("audio file not found: " +:+ err))
    | Ok fileData =>
        let b := [] in
        let b := CreateFormFile b "file" (Base audioPath) fileData in
        let b := WriteField b "model" "whisper-large-v3" in
        let b := if decide (prompt = "") then b else WriteField b "prompt" prompt in
        let b := if decide (language = "") then b
                 else WriteField b "language" language in
        let b := WriteField b "response_format" "json" in
        let b := WriteField b "temperature" "0.0" in
        match NewRequest_err lib Endpoint with
        | Some err => ret (Err err)
        | None =>
            let req :=
              {| Method := "POST";
                 ReqURL := Endpoint;
                 Header := [("Authorization", "Bearer " +:+ apiKey);
                            ("Content-Type",
                             "multipart/form-data; boundary=" +:+ Boundary w)];
                 ReqBody := Multipart b |} in
            resp <- client_Do w 60 req ;;
            match resp with
            | Err err => ret (Err err)
            | Ok resp =>
                if negb (StatusCode resp =? StatusOK)%Z
                then ret (Err ("transcription failed: " +:+ Body resp))
                else
                  match json_Decode_text lib (Body resp) with
                  | Err err => ret (Err err)
                  | Ok text => ret (Ok text)
                  end
            end
        end
    end.

(** The same in three parts, for the statements below: the form, the
    request, and what is made of the answer. *)
Definition form (audioPath fileData prompt language : string) : list Part :=
  [FormFile "file" (Base audioPath) fileData; FormField "model" "whisper-large-v3"]
  ++ (if decide (prompt = "") then [] else [FormField "prompt" prompt])
  ++ (if decide (language = "") then [] else [FormField "language" language])
  ++ [FormField "response_format" "json"; FormField "temperature" "0.0"].

Definition request (audioPath fileData prompt language : string) : Request :=
  {| Method := "POST";
     ReqURL := Endpoint;
     Header := [("Authorization", "Bearer " +:+ Getenv w "GROQ_API_KEY");
                ("Content-Type", "multipart/form-data; boundary=" +:+ Boundary w)];
     ReqBody := Multipart (form audioPath fileData prompt language) |}.

Definition answer (resp : Result Response) : Result string :=
  match resp with
  | Err err => Err err
  | Ok resp =>
      if (StatusCode resp =? StatusOK)%Z then json_Decode_text lib (Body resp)
      else Err ("transcription failed: " +:+ Body resp)
  end.

End Backend.
End GroqBackend.

(** ** Backend A: [CFTranscriber] and [CfTranscribe] (Cloudflare) *)

Module CloudflareBackend.
Section Backend.
Context (lib : GoLib) (w : World).

Definition NewCFTranscriber (accountID apiToken model language : string)
  : CFTranscriber :=
  let model := if decide (model = "") then "@cf/openai/whisper-large-v3-turbo"
               else model in
  let language := if decide (language = "") then "en" else language in
  let baseURL := "https://api.cloudflare.com/client/v4/accounts/" +:+ accountID
                 +:+ "/ai/run/" +:+ model in
  {| AccountID := accountID;
     APIToken := apiToken;
     Model := model;
     Language := language;
     BaseURL := baseURL |}.

Definition encodeAudioFile (cf : CFTranscriber) (filePath : string)
  : M (Result string) :=
  content <- os_ReadFile filePath ;;
  match content with
  | Err err => ret (Err err)
  | Ok content => ret (Ok (base64 content))
  end.

(** The map literal of line 55. *)
Definition payloadOf (cf : CFTranscriber) (encodedAudio language : string)
  : gmap string JSON :=
  <["vad_filter" := JString "false"]>
    (<["language" := JString language]>
       (<["audio" := JString encodedAudio]>
          (<["model" := JString (Model cf)]> ∅))).

(** [json.Marshal] of a map of strings does not fail. *)
Definition Transcribe (cf : CFTranscriber) (audioPath language : string)
  : M (Result (gmap string JSON)) :=
  encodedAudio <- encodeAudioFile cf audioPath ;;
  match encodedAudio with
  | Err err => ret (Err err)
  | Ok encodedAudio =>
      let language := if decide (language = "") then "en" else language in
      let payload := payloadOf cf encodedAudio language in
      match NewRequest_err lib (BaseURL cf) with
      | Some err => ret (Err err)
      | None =>
          let req :=
            {| Method := "POST";
               ReqURL := BaseURL cf;
               Header := [("Authorization", "Bearer " +:+ APIToken cf);
                          ("Content-Type", "application/json")];
               ReqBody := JSONPayload payload |} in
          resp <- client_Do w 30 req ;;
          match resp with
          | Err err => ret (Err err)
          | Ok resp =>
              if negb (StatusCode resp =? StatusOK)%Z
              then ret (Err ("transcription failed: " +:+ Body resp))
              else
                match json_Decode_map lib (Body resp) with
                | Err err => ret (Err err)
                | Ok result => ret (Ok result)
                end
          end
      end
  end.

Definition textNotFound : error := "transcription text not found in response".

Definition CfTranscribe (audioPath model language : string) : M (Result string) :=
  let accountID := Getenv w "CF_ACCOUNT_ID" in
  let apiToken := Getenv w "CF_API_KEY" in
  if bool_decide (accountID = "") || bool_decide (apiToken = "")
  then ret (Err "please set CF_ACCOUNT_ID and CF_API_KEY environment variables")
  else
    let transcriber := NewCFTranscriber accountID apiToken model language in
    result <- Transcribe transcriber audioPath language ;;
    match result with
    | Err err => ret (Err err)
    | Ok result =>
        match result !! "result" with
        | Some (JObject res) =>
            match res !! "text" with
            | Some (JString text) => ret (Ok text)
            | _ => ret (Err textNotFound)
            end
        | _ => ret (Err textNotFound)
        end
    end.

(** The same in parts, for the statements below. *)
Definition request (cf : CFTranscriber) (encodedAudio language : string) : Request :=
  {| Method := "POST";
     ReqURL := BaseURL cf;
     Header := [("Authorization", "Bearer " +:+ APIToken cf);
                ("Content-Type", "application/json")];
     ReqBody := JSONPayload
                  (payloadOf cf encodedAudio
                             (if decide (language = "") then "en" else language)) |}.

Definition answer (resp : Result Response) : Result (gmap string JSON) :=
  match resp with
  | Err err => Err err
  | Ok resp =>
      if (StatusCode resp =? StatusOK)%Z then json_Decode_map lib (Body resp)
      else Err ("transcription failed: " +:+ Body resp)
  end.

(** The two type assertions of [CfTranscribe]. *)
Definition resultText (result : gmap string JSON) : option string :=
  match result !! "result" with
  | Some (JObject res) =>
      match res !! "text" with
      | Some (JString text) => Some text
      | _ => None
      end
  | _ => None
  end.

End Backend.
End CloudflareBackend.

(** ** What whatsapp_handler.go and groq_transcriber.go share

    The package variables, [loadExcludedNumbers] and [setupDirectories] are
    the same text in both files. *)

Definition LOG_DIR : string := "logs".
Definition MESSAGES_DIR : string := "messages".
Definition WHISPER_PROMPT : string :=
  "Transcreva com precisão, preservando enunciados conforme falados. Corrija erros ortográficos comuns sem alterar a intenção original. Use pontuação e capitalização de forma natural para facilitar a leitura. Foda-se. Amorzinho.".

Definition LF : string := String "010" EmptyString.

(** The loop body of [loadExcludedNumbers]: the line is trimmed and, when
    it is not blank, entered into the map. *)
Definition addLine (excluded : gmap string bool) (line : string) : gmap string bool :=
  let line := TrimSpace line in
  if decide (line = "") then excluded else <[line := true]> excluded.

Definition loadExcludedNumbers (filePath : string) : M (gmap string bool) :=
  let excluded : gmap string bool := ∅ in
  file <- os_ReadFile filePath ;;
  match file with
  | Err _ =>
      emit (EPrint ("Warning: %s not found. Using default exclusions." +:+ LF)
                   [AStr filePath]) ;;;
      ret excluded
  | Ok content =>
      let lines := SplitLines content in
      ret (foldl addLine excluded lines)
  end.

(** [EXCLUDED_NUMBERS[sender]]: a key that is not in the map reads [false]. *)
Definition IsExcluded (EXCLUDED_NUMBERS : gmap string bool) (sender : string) : bool :=
  default false (EXCLUDED_NUMBERS !! sender).

(** How [main] leaves its start-up: [log.Fatalf] ends the process, otherwise
    the handler is registered and events are served. *)
Inductive Startup : Type :=
| Fatal (msg : string)
| Serving (EXCLUDED_NUMBERS : gmap string bool).

Definition log_Fatalf (format : string) (args : list Arg) (msg : string) : M Startup :=
  emit (ELog format args) ;;; ret (Fatal msg).

Fixpoint setupDirectoriesLoop (w : World) (dirs : list string) : M (option string) :=
  match dirs with
  | [] => ret None
  | dir :: rest =>
      err <- os_MkdirAll w dir ;;
      match err with
      | Some err =>
          emit (ELog "Failed to create directory %s: %v" [AStr dir; AErr err]) ;;;
          ret (Some ("Failed to create directory " +:+ dir +:+ ": " +:+ err))
      | None => setupDirectoriesLoop w rest
      end
  end.

(** [setupDirectories]: [Some msg] when [log.Fatalf] was reached. *)
Definition setupDirectories (w : World) : M (option string) :=
  let dirs := [LOG_DIR; MESSAGES_DIR] in
  setupDirectoriesLoop w dirs.

(** Lines 268 to 279 of groq_transcriber.go, 201 to 212 of
    whatsapp_handler.go: the reply. *)
Definition replyText (transcription : string) : string :=
  "*Transcrição automática:*" +:+ LF +:+ LF +:+ "_" +:+ transcription +:+ "_".

Definition sendReply (w : World) (evt : Message) (transcription : string)
  : M (option error) :=
  let transcription := TrimSpace transcription in
  let replyText := replyText transcription in
  let chatID := Info_Chat_ID evt in
  sent <- client_SendMessage w chatID replyText ;;
  match sent with
  | Some err =>
      log_Printf "Failed to send reply message: %v" [AErr err] ;;;
      ret (Some err)
  | None =>
      log_Println "Reply sent successfully." ;;;
      ret None
  end.

(** The body of [main] from the database on, the same in both files. *)
Definition connectTransport (w : World) (EXCLUDED_NUMBERS : gmap string bool)
  : M Startup :=
  match sqlstore_New w with
  | Some err =>
      log_Fatalf "Failed to connect to database: %v" [AErr err]
                 ("Failed to connect to database: " +:+ err)
  | None =>
      match GetFirstDevice w with
      | Some err =>
          log_Fatalf "Failed to get device: %v" [AErr err]
                     ("Failed to get device: " +:+ err)
      | None =>
          match Connect w with
          | Some err =>
              log_Fatalf "Failed to connect: %v" [AErr err]
                         ("Failed to connect: " +:+ err)
          | None =>
              log_Println "Connected to WhatsApp" ;;;
              ret (Serving EXCLUDED_NUMBERS)
          end
      end
  end.

(** ** groq_transcriber.go: [main], [handleMessage], [processAudioMessage] *)

Module GroqTranscriber.
Section Handler.
Context (lib : GoLib) (w : World).

(** [processAudioMessage], the call of line 253 left open: the source
    calls [TranscribeAudioGroq] and names [CfTranscribe] as the other
    choice. *)
Definition processAudioMessageWith
    (backend : string -> M (Result string)) (evt : Message) : M (option error) :=
  match GetAudioMessage evt with
  | None => ret (Some "audio message details not found")
  | Some audioMsg =>
      let directPath := URL audioMsg in
      let fileLength := FileLength audioMsg in
      resp <- http_get w directPath ;;
      match resp with
      | Err err =>
          log_Printf "Failed to download audio: %v" [AErr err] ;;;
          ret (Some err)
      | Ok resp =>
          tempFile <- os_CreateTemp w MESSAGES_DIR
                        ("audio-" +:+ itoa fileLength +:+ "-") ".webm" ;;
          match tempFile with
          | Err err =>
              log_Printf "Failed to create temp file: %v" [AErr err] ;;;
              ret (Some err)
          | Ok tempFilePath =>
              copied <- io_Copy w tempFilePath (Body resp) ;;
              match copied with
              | Some err =>
                  log_Printf "Failed to save audio file: %v" [AErr err] ;;;
                  ret (Some err)
              | None =>
                  log_Printf "Audio message downloaded and saved to: %s"
                             [AStr tempFilePath] ;;;
                  transcription <- backend tempFilePath ;;
                  match transcription with
                  | Err err =>
                      log_Printf "Error during transcription: %v" [AErr err] ;;;
                      ret (Some err)
                  | Ok transcription =>
                      log_Println "Audio transcription completed." ;;;
                      removed <- os_Remove tempFilePath ;;
                      match removed with
                      | Some err =>
                          log_Printf "Error removing temporary audio file: %v"
                                     [AErr err]
                      | None =>
                          log_Printf "Temporary audio file removed: %s"
                                     [AStr tempFilePath]
                      end ;;;
                      sendReply w evt transcription
                  end
              end
          end
      end
  end.

Definition processAudioMessage (evt : Message) : M (option error) :=
  processAudioMessageWith
    (fun tempFilePath =>
       GroqBackend.TranscribeAudioGroq lib w tempFilePath WHISPER_PROMPT "pt")
    evt.

Definition handleMessage (EXCLUDED_NUMBERS : gmap string bool) (evt : Message)
  : M unit :=
  if Info_IsGroup evt then log_Println "Message is from a group, ignoring..."
  else
    let sender := Info_Sender_User evt in
    if IsExcluded EXCLUDED_NUMBERS sender then
      log_Printf "Sender %s is excluded. Skipping transcription." [AStr sender]
    else
      match GetAudioMessage evt with
      | Some audioMsg =>
          log_Println "Audio message detected, processing transcription..." ;;;
          err <- processAudioMessage evt ;;
          match err with
          | Some err => log_Printf "Error processing audio message: %v" [AErr err]
          | None => ret tt
          end
      | None => log_Println "Received non-audio message, ignoring..."
      end.

(** [main] up to the wait for the signal. *)
Definition main : M Startup :=
  match godotenv_Load w with
  | Some _ => log_Println "No .env file found, continuing with environment variables"
  | None => ret tt
  end ;;;
  failed <- setupDirectories w ;;
  match failed with
  | Some msg => ret (Fatal msg)
  | None =>
      EXCLUDED_NUMBERS <- loadExcludedNumbers "exclude.txt" ;;
      log_Printf "Loaded excluded numbers: %v" [AMap EXCLUDED_NUMBERS] ;;;
      emit (EPrint "Whatsmeow message: " []) ;;;
      emit (EPrint "Warning message" []) ;;;
      emit (EPrint "Error message" []) ;;;
      connectTransport w EXCLUDED_NUMBERS
  end.

(** The process on one event: start-up, then the handler that the
    transport calls with the event. *)
Definition serve (evt : Message) : M Startup :=
  started <- main ;;
  match started with
  | Fatal msg => ret (Fatal msg)
  | Serving EXCLUDED_NUMBERS =>
      handleMessage EXCLUDED_NUMBERS evt ;;;
      ret (Serving EXCLUDED_NUMBERS)
  end.

End Handler.
End GroqTranscriber.

(** ** whatsapp_handler.go: [main], [handleMessage], [processAudioMessage] *)

Module WhatsappHandler.
Section Handler.
Context (lib : GoLib) (w : World).

(** [processAudioMessage], the call of line 186 left open as above.  The
    pattern of the temporary file is [fmt.Sprintf("audio-%d-*.webm")]
    without its argument. *)
Definition processAudioMessageWith
    (backend : string -> M (Result string)) (evt : Message) : M (option error) :=
  audioMsg <- client_DownloadToFile w (GetAudioMessage evt) ;;
  match audioMsg with
  | None => ret (Some "audio message details not found")
  | Some audioMsg =>
      tempFile <- os_CreateTemp w MESSAGES_DIR "audio-%!d(MISSING)-" ".webm" ;;
      match tempFile with
      | Err err =>
          log_Printf "Failed to create temp file: %v" [AErr err] ;;;
          ret (Some err)
      | Ok tempFilePath =>
          copied <- io_Copy w tempFilePath (dl_stream audioMsg) ;;
          match copied with
          | Some err =>
              log_Printf "Failed to save audio file: %v" [AErr err] ;;;
              ret (Some err)
          | None =>
              log_Printf "Audio message downloaded and saved to: %s"
                         [AStr (dl_name audioMsg)] ;;;
              transcription <- backend (dl_name audioMsg) ;;
              match transcription with
              | Err err =>
                  log_Printf "Error during transcription: %v" [AErr err] ;;;
                  ret (Some err)
              | Ok transcription =>
                  log_Println "Audio transcription completed." ;;;
                  sendReply w evt transcription
              end
          end
      end
  end.

Definition processAudioMessage (evt : Message) : M (option error) :=
  processAudioMessageWith
    (fun audioMsg =>
       GroqBackend.TranscribeAudioGroq lib w audioMsg WHISPER_PROMPT "pt")
    evt.

(** Lines 110 to 133: an audio message is first saved under downloads;
    [false] when the block returned from [handleMessage]. *)
Definition saveAudio (evt : Message) : M bool :=
  if bool_decide (Info_MediaType evt = "audio")
     && bool_decide (Message_AudioMessage evt <> None)
  then
    let savePath := filepath_Join lib "downloads" (Info_ID evt +:+ ".ogg") in
    made <- os_MkdirAll w (filepath_Dir lib savePath) ;;
    match made with
    | Some err =>
        fmt_Println "Error creating directory:" [AErr err] ;;;
        ret false
    | None =>
        written <- os_WriteFile w savePath (data w) ;;
        match written with
        | Some err =>
            fmt_Println "Error saving audio file:" [AErr err] ;;;
            ret false
        | None =>
            fmt_Println "Audio message saved to:" [AStr savePath] ;;;
            ret true
        end
    end
  else ret true.

Definition handleMessage (EXCLUDED_NUMBERS : gmap string bool) (evt : Message)
  : M unit :=
  continue <- saveAudio evt ;;
  if negb continue then ret tt
  else if Info_IsGroup evt then log_Println "Message is from a group, ignoring..."
  else
    let sender := Info_Sender_User evt in
    if IsExcluded EXCLUDED_NUMBERS sender then
      log_Printf "Sender %s is excluded. Skipping transcription." [AStr sender]
    else
      match GetAudioMessage evt with
      | Some audioMsg =>
          log_Println "Audio message detected, processing transcription..." ;;;
          err <- processAudioMessage evt ;;
          match err with
          | Some err => log_Printf "Error processing audio message: %v" [AErr err]
          | None => ret tt
          end
      | None => log_Println "Received non-audio message, ignoring..."
      end.

(** [main] up to the wait for the signal. *)
Definition main : M Startup :=
  match godotenv_Load w with
  | Some _ => log_Println "No .env file found, continuing with environment variables"
  | None => ret tt
  end ;;;
  failed <- setupDirectories w ;;
  match failed with
  | Some msg => ret (Fatal msg)
  | None =>
      EXCLUDED_NUMBERS <- loadExcludedNumbers "exclude.txt" ;;
      log_Printf "Loaded excluded numbers: %v" [AMap EXCLUDED_NUMBERS] ;;;
      connectTransport w EXCLUDED_NUMBERS
  end.

Definition serve (evt : Message) : M Startup :=
  started <- main ;;
  match started with
  | Fatal msg => ret (Fatal msg)
  | Serving EXCLUDED_NUMBERS =>
      handleMessage EXCLUDED_NUMBERS evt ;;;
      ret (Serving EXCLUDED_NUMBERS)
  end.

End Handler.
End WhatsappHandler.

(** The world with another process environment, and a transcriber with
    another configured language. *)
Definition withEnv (w : World) (env : string -> string) : World :=
  {| Getenv := env;
     http_Get := http_Get w;
     http_Do := http_Do w;
     DownloadToFile := DownloadToFile w;
     SendMessage := SendMessage w;
     MkdirAll_err := MkdirAll_err w;
     Write_err := Write_err w;
     CreateTemp_rand := CreateTemp_rand w;
     Boundary := Boundary w;
     data := data w;
     godotenv_Load := godotenv_Load w;
     sqlstore_New := sqlstore_New w;
     GetFirstDevice := GetFirstDevice w;
     Connect := Connect w |}.

Definition withLanguage (cf : CFTranscriber) (language : string) : CFTranscriber :=
  {| AccountID := AccountID cf;
     APIToken := APIToken cf;
     Model := Model cf;
     Language := language;
     BaseURL := BaseURL cf |}.

(** ** What a run shows to the outside *)

(** The replies sent, the requests made to a backend, the plain GETs and the
    downloads through the transport, each in order. *)
Fixpoint replies (t : list Effect) : list (string * string) :=
  match t with
  | [] => []
  | ESend chat text :: t => (chat, text) :: replies t
  | _ :: t => replies t
  end.

Fixpoint backendRequests (t : list Effect) : list Request :=
  match t with
  | [] => []
  | EHttpDo _ req :: t => req :: backendRequests t
  | _ :: t => backendRequests t
  end.

Fixpoint rawGets (t : list Effect) : list string :=
  match t with
  | [] => []
  | EHttpGet url :: t => url :: rawGets t
  | _ :: t => rawGets t
  end.

Fixpoint transportDownloads (t : list Effect) : list (option AudioMessage) :=
  match t with
  | [] => []
  | EDownload msg :: t => msg :: transportDownloads t
  | _ :: t => transportDownloads t
  end.

(** A run that reached neither a backend nor the conversation, and fetched
    nothing. *)
Definition quiet (t : list Effect) : Prop :=
  backendRequests t = [] /\ replies t = [] /\ rawGets t = [] /\
  transportDownloads t = [].

(** The three log lines of the events that are not dispatched. *)
Definition ignoredGroup : Effect := ELog "Message is from a group, ignoring..." [].
Definition ignoredSender (sender : string) : Effect :=
  ELog "Sender %s is excluded. Skipping transcription." [AStr sender].
Definition ignoredNonAudio : Effect := ELog "Received non-audio message, ignoring..." [].

(** ** A concrete world, for running the definitions *)

Module Sample.

(** A reader for the JSON texts of the examples: objects, arrays, strings
    with the one-letter escapes, number literals, [true], [false], [null]. *)

Definition quote : ascii := "034"%char.
Definition backslash : ascii := "092"%char.

Definition isWs (c : ascii) : bool :=
  let n := code c in ((n =? 32) || (n =? 9) || (n =? 10) || (n =? 13))%N.

Fixpoint skipWs (s : string) : string :=
  match s with
  | String c t => if isWs c then skipWs t else s
  | EmptyString => s
  end.

Definition unescape (c : ascii) : option ascii :=
  let n := code c in
  if (n =? 110)%N then Some "010"%char
  else if (n =? 116)%N then Some "009"%char
  else if (n =? 114)%N then Some "013"%char
  else if (n =? 98)%N then Some "008"%char
  else if (n =? 102)%N then Some "012"%char
  else if ((n =? 34) || (n =? 92) || (n =? 47))%N then Some c
  else None.

(** The text of a string literal, read after its opening quote. *)
Fixpoint readString (s : string) : option (string * string) :=
  match s with
  | EmptyString => None
  | String c t =>
      if Ascii.eqb c quote then Some (EmptyString, t)
      else if Ascii.eqb c backslash then
        match t with
        | EmptyString => None
        | String e t' =>
            match unescape e, readString t' with
            | Some x, Some (str, rest) => Some (String x str, rest)
            | _, _ => None
            end
        end
      else
        match readString t with
        | Some (str, rest) => Some (String c str, rest)
        | None => None
        end
  end.

Definition isNumChar (c : ascii) : bool :=
  let n := code c in
  (((48 <=? n) && (n <=? 57)) || (n =? 45) || (n =? 43) || (n =? 46)
   || (n =? 101) || (n =? 69))%N.

Fixpoint readNumber (s : string) : string * string :=
  match s with
  | String c t =>
      if isNumChar c then let '(lit, rest) := readNumber t in (String c lit, rest)
      else (EmptyString, s)
  | EmptyString => (EmptyString, s)
  end.

Definition readWord (word : string) (s : string) : option string :=
  if String.prefix word s
  then Some (dropBytes (String.length word) s) else None.

Fixpoint readValue (fuel : nat) (s : string) : option (JSON * string) :=
  match fuel with
  | O => None
  | S fuel =>
      match skipWs s with
      | EmptyString => None
      | String c t =>
          if Ascii.eqb c "{"%char then readMembers fuel (skipWs t) ∅
          else if Ascii.eqb c "["%char then readElements fuel (skipWs t) []
          else if Ascii.eqb c quote then
            match readString t with
            | Some (str, rest) => Some (JString str, rest)
            | None => None
            end
          else if isNumChar c then
            let '(lit, rest) := readNumber (String c t) in Some (JNumber lit, rest)
          else
            match readWord "true" (String c t), readWord "false" (String c t),
                  readWord "null" (String c t) with
            | Some rest, _, _ => Some (JBool true, rest)
            | _, Some rest, _ => Some (JBool false, rest)
            | _, _, Some rest => Some (JNull, rest)
            | _, _, _ => None
            end
      end
  end
with readMembers (fuel : nat) (s : string) (acc : gmap string JSON)
  : option (JSON * string) :=
  match fuel with
  | O => None
  | S fuel =>
      match s with
      | EmptyString => None
      | String c t =>
          if Ascii.eqb c "}"%char then Some (JObject acc, t)
          else if Ascii.eqb c quote then
            match readString t with
            | None => None
            | Some (key, rest) =>
                match skipWs rest with
                | String colon rest =>
                    if Ascii.eqb colon ":"%char then
                      match readValue fuel rest with
                      | None => None
                      | Some (v, rest) =>
                          let acc := <[key := v]> acc in
                          match skipWs rest with
                          | String d rest =>
                              if Ascii.eqb d ","%char
                              then readMembers fuel (skipWs rest) acc
                              else if Ascii.eqb d "}"%char
                              then Some (JObject acc, rest)
                              else None
                          | EmptyString => None
                          end
                      end
                    else None
                | EmptyString => None
                end
            end
          else None
      end
  end
with readElements (fuel : nat) (s : string) (acc : list JSON)
  : option (JSON * string) :=
  match fuel with
  | O => None
  | S fuel =>
      match s with
      | EmptyString => None
      | String c t =>
          if Ascii.eqb c "]"%char then Some (JArray acc, t)
          else
            match readValue fuel s with
            | None => None
            | Some (v, rest) =>
                let acc := acc ++ [v] in
                match skipWs rest with
                | String d rest =>
                    if Ascii.eqb d ","%char
                    then readElements fuel (skipWs rest) acc
                    else if Ascii.eqb d "]"%char
                    then Some (JArray acc, rest)
                    else None
                | EmptyString => None
                end
            end
      end
  end.

Definition readJSON (body : string) : option JSON :=
  match readValue (S (String.length body)) body with
  | Some (v, _) => Some v
  | None => None
  end.

(** The decoders on top of the reader: a JSON [null] leaves the target as
    it is, a value of another kind than the target's is an error. *)
Definition decodeMap (body : string) : Result (gmap string JSON) :=
  match readJSON body with
  | Some (JObject m) => Ok m
  | Some JNull => Ok ∅
  | Some _ => Err "json: cannot unmarshal into Go value of type map[string]interface {}"
  | None => Err "invalid character looking for beginning of value"
  end.

Definition decodeText (body : string) : Result string :=
  match readJSON body with
  | Some (JObject m) =>
      match m !! "text" with
      | Some (JString text) => Ok text
      | Some JNull | None => Ok ""
      | Some _ => Err "json: cannot unmarshal into Go struct field .text of type string"
      end
  | Some JNull => Ok ""
  | Some _ => Err "json: cannot unmarshal into Go value of type struct { Text string }"
  | None => Err "invalid character looking for beginning of value"
  end.

Definition lib : GoLib :=
  {| json_Decode_map := decodeMap;
     json_Decode_text := decodeText;
     NewRequest_err := fun _ => None;
     filepath_Join := fun a b => a +:+ "/" +:+ b;
     filepath_Dir := fun path => String.rev (stripSlashes
                       (dropBytes (String.length (untilSlash (String.rev path)))
                                  (String.rev path))) |}.

Definition q : string := String quote EmptyString.

(** [{"text":"  oi  "}], [{"result":{"text":"hello"}}] and [{"result":{}}]. *)
Definition body_oi : string :=
  "{" +:+ q +:+ "text" +:+ q +:+ ":" +:+ q +:+ "  oi  " +:+ q +:+ "}".
Definition body_hello : string :=
  "{" +:+ q +:+ "result" +:+ q +:+ ":{" +:+ q +:+ "text" +:+ q +:+ ":"
      +:+ q +:+ "hello" +:+ q +:+ "}}".
Definition body_empty_result : string :=
  "{" +:+ q +:+ "result" +:+ q +:+ ":{}}".

Definition voice : AudioMessage :=
  {| URL := "https://mmg.whatsapp.net/v/t62/voice.enc";
     DirectPath := "/v/t62/voice.enc";
     MediaKey := "k3y";
     FileLength := 4096 |}.

(** A voice message of a direct chat, the same in a group, and a text. *)
Definition evt : Message :=
  {| Info_ID := "3EB0A1";
     Info_IsGroup := false;
     Info_MediaType := "audio";
     Info_Sender_User := "5511999990000";
     Info_Chat_ID := "5511999990000@s.whatsapp.net";
     Message_AudioMessage := Some voice |}.

Definition groupEvt : Message :=
  {| Info_ID := "3EB0A2";
     Info_IsGroup := true;
     Info_MediaType := "audio";
     Info_Sender_User := "5511999990000";
     Info_Chat_ID := "120363000000000000@g.us";
     Message_AudioMessage := Some voice |}.

Definition textEvt : Message :=
  {| Info_ID := "3EB0A3";
     Info_IsGroup := false;
     Info_MediaType := "";
     Info_Sender_User := "5511999990000";
     Info_Chat_ID := "5511999990000@s.whatsapp.net";
     Message_AudioMessage := None |}.

(** A world where everything works: the environment [env], and a backend
    that answers every request with [status] and [body]. *)
Definition world (env : gmap string string) (status : Z) (body : string) : World :=
  {| Getenv := fun name => default "" (env !! name);
     http_Get := fun _ => Ok {| StatusCode := 200; Body := "ciphertext" |};
     http_Do := fun _ _ => Ok {| StatusCode := status; Body := body |};
     DownloadToFile := fun _ => Some {| dl_stream := "opus"; dl_name := "voice.ogg" |};
     SendMessage := fun _ _ => None;
     MkdirAll_err := fun _ => None;
     Write_err := fun _ => None;
     CreateTemp_rand := fun _ _ _ => Ok "1234567";
     Boundary := "b0undary";
     data := "";
     godotenv_Load := None;
     sqlstore_New := None;
     GetFirstDevice := None;
     Connect := None |}.

(** The same world on a disk that refuses every write. *)
Definition lockedWorld (env : gmap string string) (status : Z) (body : string)
  : World :=
  {| Getenv := fun name => default "" (env !! name);
     http_Get := fun _ => Ok {| StatusCode := 200; Body := "ciphertext" |};
     http_Do := fun _ _ => Ok {| StatusCode := status; Body := body |};
     DownloadToFile := fun _ => Some {| dl_stream := "opus"; dl_name := "voice.ogg" |};
     SendMessage := fun _ _ => None;
     MkdirAll_err := fun _ => Some "permission denied";
     Write_err := fun _ => Some "permission denied";
     CreateTemp_rand := fun _ _ _ => Err "permission denied";
     Boundary := "b0undary";
     data := "";
     godotenv_Load := None;
     sqlstore_New := None;
     GetFirstDevice := None;
     Connect := None |}.

(** The same world on a disk that is full: files are created, not written. *)
Definition fullDiskWorld (env : gmap string string) (status : Z) (body : string)
  : World :=
  {| Getenv := fun name => default "" (env !! name);
     http_Get := fun _ => Ok {| StatusCode := 200; Body := "ciphertext" |};
     http_Do := fun _ _ => Ok {| StatusCode := status; Body := body |};
     DownloadToFile := fun _ => Some {| dl_stream := "opus"; dl_name := "voice.ogg" |};
     SendMessage := fun _ _ => None;
     MkdirAll_err := fun _ => None;
     Write_err := fun _ => Some "no space left on device";
     CreateTemp_rand := fun _ _ _ => Ok "1234567";
     Boundary := "b0undary";
     data := "";
     godotenv_Load := None;
     sqlstore_New := None;
     GetFirstDevice := None;
     Connect := None |}.

Definition groqEnv : gmap string string := {[ "GROQ_API_KEY" := "gsk_live" ]}.
Definition cfEnv : gmap string string :=
  <["CF_ACCOUNT_ID" := "acc42"]> {[ "CF_API_KEY" := "tok" ]}.

(** The file system of a fresh checkout plus one recording. *)
Definition disk : FS := {[ "voice.ogg" := "opus" ]}.

End Sample.


(** ** Further observations *)

(** The characters of the base64 alphabet and the padding. *)
Definition isBase64Char (c : ascii) : bool :=
  let n := code c in
  (((65 <=? n) && (n <=? 90)) || ((97 <=? n) && (n <=? 122))
   || ((48 <=? n) && (n <=? 57)) || (n =? 43) || (n =? 47) || (n =? 61))%N.

(** A body whose transcript is three spaces. *)
Definition blankBody : string :=
  "{" +:+ Sample.q +:+ "text" +:+ Sample.q +:+ ":" +:+ Sample.q +:+ "   "
      +:+ Sample.q +:+ "}".

(** * Properties *)

(** ** White space *)

Lemma append_cons (c : ascii) (s t : string) : String c s +:+ t = String c (s +:+ t).
Proof. reflexivity. Qed.

Lemma append_nil_r (s : string) : s +:+ "" = s.
Proof. induction s as [| c s IH]; [reflexivity |]. rewrite append_cons, IH. reflexivity. Qed.

Lemma append_assoc (s t u : string) : (s +:+ t) +:+ u = s +:+ (t +:+ u).
Proof.
  induction s as [| c s IH]; [reflexivity |].
  rewrite !append_cons, IH. reflexivity.
Qed.

Lemma rev_app_append (s a : string) : String.rev_app s a = String.rev s +:+ a.
Proof.
  unfold String.rev. revert a. induction s as [| c s IH]; intros a; [reflexivity |].
  cbn [String.rev_app]. rewrite (IH (String c a)), (IH (String c "")), append_assoc.
  reflexivity.
Qed.

Lemma rev_cons (c : ascii) (s : string) :
  String.rev (String c s) = String.rev s +:+ String c "".
Proof. unfold String.rev at 1. cbn [String.rev_app]. apply rev_app_append. Qed.

Lemma rev_append (s t : string) : String.rev (s +:+ t) = String.rev t +:+ String.rev s.
Proof.
  induction s as [| c s IH].
  - change ("" +:+ t) with t. symmetry. apply append_nil_r.
  - rewrite append_cons, !rev_cons, IH, append_assoc. reflexivity.
Qed.

Lemma rev_involutive (s : string) : String.rev (String.rev s) = s.
Proof.
  induction s as [| c s IH]; [reflexivity |].
  rewrite rev_cons, rev_append, IH. reflexivity.
Qed.

Lemma length_rev (s : string) : String.length (String.rev s) = String.length s.
Proof.
  assert (Happ : forall a b, String.length (a +:+ b) = String.length a + String.length b).
  { induction a as [| c a IH]; intros b; [reflexivity |].
    rewrite append_cons. simpl. rewrite IH. reflexivity. }
  induction s as [| c s IH]; [reflexivity |].
  rewrite rev_cons, Happ, IH. simpl. lia.
Qed.

Lemma length_dropBytes (n : nat) (s : string) :
  String.length (dropBytes n s) <= String.length s.
Proof.
  revert s. induction n as [| n IH]; intros [| c s]; simpl; try lia.
  specialize (IH s). lia.
Qed.

Lemma dropBytes_suffix (n : nat) (s : string) : exists p, s = p +:+ dropBytes n s.
Proof.
  revert s. induction n as [| n IH]; intros s.
  - exists "". destruct s; reflexivity.
  - destruct s as [| c s]; [exists ""; reflexivity |].
    destruct (IH s) as [p Hp]. exists (String c p).
    rewrite append_cons. simpl. rewrite <- Hp. reflexivity.
Qed.

Lemma spaceWidth_empty : spaceWidth "" = 0.
Proof. reflexivity. Qed.

Lemma trimLeftFuel_done (fuel : nat) (s : string) :
  String.length s <= fuel -> spaceWidth (trimLeftFuel fuel s) = 0.
Proof.
  revert s. induction fuel as [| fuel IH]; intros s Hlen.
  - destruct s; [reflexivity | simpl in Hlen; lia].
  - cbn [trimLeftFuel]. destruct (spaceWidth s) as [| w] eqn:Hw; [exact Hw |].
    apply IH. destruct s as [| c s]; [discriminate Hw |].
    simpl in *. pose proof (length_dropBytes w s). lia.
Qed.

Lemma trimRightFuel_done (fuel : nat) (r : string) :
  String.length r <= fuel -> spaceWidthRev (trimRightFuel fuel r) = 0.
Proof.
  revert r. induction fuel as [| fuel IH]; intros r Hlen.
  - destruct r; [reflexivity | simpl in Hlen; lia].
  - cbn [trimRightFuel]. destruct (spaceWidthRev r) as [| w] eqn:Hw; [exact Hw |].
    apply IH. destruct r as [| c r]; [discriminate Hw |].
    simpl in *. pose proof (length_dropBytes w r). lia.
Qed.

Lemma trimRightFuel_suffix (fuel : nat) (r : string) :
  exists p, r = p +:+ trimRightFuel fuel r.
Proof.
  revert r. induction fuel as [| fuel IH]; intros r; [exists ""; reflexivity |].
  cbn [trimRightFuel]. destruct (spaceWidthRev r) as [| w]; [exists ""; reflexivity |].
  destruct (dropBytes_suffix (S w) r) as [p Hp].
  destruct (IH (dropBytes (S w) r)) as [p' Hp'].
  exists (p +:+ p'). rewrite append_assoc, <- Hp'. exact Hp.
Qed.

(** A white-space rune at the head of a string is at the head of every
    string that begins with it. *)
Lemma spaceWidth_append (s t : string) (w : nat) :
  spaceWidth s = S w -> spaceWidth (s +:+ t) = S w.
Proof.
  destruct s as [| c0 [| c1 [| c2 s]]]; rewrite ?append_cons; cbn [spaceWidth].
  - discriminate.
  - destruct (asciiSpace c0); [| discriminate].
    intros H. destruct t as [| ? [| ? ?]]; exact H.
  - destruct (asciiSpace c0); [intros H; destruct t; exact H |].
    destruct ((code c0 =? 194)%N && ((code c1 =? 133)%N || (code c1 =? 160)%N));
      [| discriminate].
    intros H. destruct t; exact H.
  - intros H. exact H.
Qed.

(** [TrimSpace] leaves no white space at either end. *)
Lemma TrimSpace_no_surrounding_space (s : string) :
  spaceWidth (TrimSpace s) = 0 /\ spaceWidthRev (String.rev (TrimSpace s)) = 0.
Proof.
  unfold TrimSpace, TrimRight. set (l := TrimLeft s). split.
  - destruct (spaceWidth (String.rev (trimRightFuel (String.length l) (String.rev l))))
      as [| w] eqn:Hw; [reflexivity |].
    destruct (trimRightFuel_suffix (String.length l) (String.rev l)) as [p Hp].
    apply (f_equal String.rev) in Hp. rewrite rev_involutive, rev_append in Hp.
    pose proof (spaceWidth_append _ (String.rev p) w Hw) as Hl.
    rewrite <- Hp in Hl. subst l. unfold TrimLeft in Hl.
    rewrite trimLeftFuel_done in Hl by lia. discriminate Hl.
  - rewrite rev_involutive. apply trimRightFuel_done. rewrite length_rev. lia.
Qed.

Example TrimSpace_oi : TrimSpace "  oi  " = "oi".
Proof. reflexivity. Qed.

(** A line end of two bytes, a no-break space and a line separator are
    white space too; a tab inside the text stays. *)
Example TrimSpace_unicode :
  TrimSpace (String "194" (String "160" (" a" +:+ String "009" "b "
             +:+ String "226" (String "128" (String "168" (String "013" ""))))))
  = "a" +:+ String "009" "b".
Proof. reflexivity. Qed.

Example SplitLines_trailing_newline :
  SplitLines ("5511" +:+ LF +:+ LF +:+ " 5522 " +:+ LF) = ["5511"; ""; " 5522 "; ""].
Proof. reflexivity. Qed.

(** ** Runs *)

Lemma value_bind {A B} (m : M A) (k : A -> M B) (fs : FS) :
  value (bind m k fs) = value (k (value (m fs)) (final (m fs))).
Proof.
  unfold bind, value, final.
  destruct (m fs) as [[a fs1] t1]; simpl.
  destruct (k a fs1) as [[b fs2] t2]; reflexivity.
Qed.

Lemma final_bind {A B} (m : M A) (k : A -> M B) (fs : FS) :
  final (bind m k fs) = final (k (value (m fs)) (final (m fs))).
Proof.
  unfold bind, value, final.
  destruct (m fs) as [[a fs1] t1]; simpl.
  destruct (k a fs1) as [[b fs2] t2]; reflexivity.
Qed.

Lemma effects_bind {A B} (m : M A) (k : A -> M B) (fs : FS) :
  effects (bind m k fs) =
  effects (m fs) ++ effects (k (value (m fs)) (final (m fs))).
Proof.
  unfold bind, value, final, effects.
  destruct (m fs) as [[a fs1] t1]; simpl.
  destruct (k a fs1) as [[b fs2] t2]; reflexivity.
Qed.

(** ** ExclusionFilter *)

Lemma addLine_lookup (acc : gmap string bool) (line sender : string) :
  addLine acc line !! sender = Some true <->
  acc !! sender = Some true \/ (TrimSpace line = sender /\ TrimSpace line <> "").
Proof.
  unfold addLine. destruct (decide (TrimSpace line = "")) as [Hb | Hb].
  - split; [auto | intros [H | [_ H]]; [exact H | contradiction]].
  - destruct (decide (TrimSpace line = sender)) as [Heq | Hne].
    + rewrite Heq, lookup_insert_eq. split; [intros _ | reflexivity].
      right; split; [reflexivity | rewrite <- Heq; exact Hb].
    + rewrite lookup_insert_ne by exact Hne. split; [auto |].
      intros [H | [H _]]; [exact H | contradiction].
Qed.

Lemma foldl_addLine_lookup (lines : list string) (acc : gmap string bool)
      (sender : string) :
  foldl addLine acc lines !! sender = Some true <->
  acc !! sender = Some true \/
  exists line, In line lines /\ TrimSpace line = sender /\ TrimSpace line <> "".
Proof.
  revert acc. induction lines as [| l lines IH]; intros acc; simpl.
  - split; [auto | intros [H | (x & [] & _)]; exact H].
  - rewrite IH, addLine_lookup. split.
    + intros [[H | H] | (x & Hin & H)].
      * left; exact H.
      * right; exists l; split; [left; reflexivity | exact H].
      * right; exists x; split; [right; exact Hin | exact H].
    + intros [H | (x & [<- | Hin] & H)].
      * left; left; exact H.
      * left; right; exact H.
      * right; exists x; split; [exact Hin | exact H].
Qed.

Lemma addLine_only_true (acc : gmap string bool) (line : string) :
  (forall k b, acc !! k = Some b -> b = true) ->
  forall k b, addLine acc line !! k = Some b -> b = true.
Proof.
  intros Hacc k b. unfold addLine.
  destruct (decide (TrimSpace line = "")); [apply Hacc |].
  destruct (decide (TrimSpace line = k)) as [-> | Hne].
  - rewrite lookup_insert_eq. congruence.
  - rewrite lookup_insert_ne by exact Hne. apply Hacc.
Qed.

Lemma foldl_addLine_only_true (lines : list string) (acc : gmap string bool) :
  (forall k b, acc !! k = Some b -> b = true) ->
  forall k b, foldl addLine acc lines !! k = Some b -> b = true.
Proof.
  revert acc. induction lines as [| l lines IH]; intros acc Hacc; simpl.
  - exact Hacc.
  - apply IH, addLine_only_true, Hacc.
Qed.


Lemma loadExcludedNumbers_value (filePath : string) (fs : FS) :
  value (loadExcludedNumbers filePath fs) =
  match fs !! filePath with
  | Some content => foldl addLine ∅ (SplitLines content)
  | None => ∅
  end.
Proof.
  unfold loadExcludedNumbers, bind, os_ReadFile, value.
  destruct (fs !! filePath); reflexivity.
Qed.



Example exclusion_file_with_blank_lines :
  let fs : FS := {[ "exclude.txt" := "5511" +:+ LF +:+ LF +:+ " 5522 " +:+ LF ]} in
  let excluded := value (loadExcludedNumbers "exclude.txt" fs) in
  excluded = {[ "5511" := true; "5522" := true ]}
  /\ IsExcluded excluded "5522" = true
  /\ IsExcluded excluded " 5522 " = false
  /\ IsExcluded excluded "" = false
  /\ IsExcluded (value (loadExcludedNumbers "exclude.txt" ∅)) "5511" = false.
Proof. repeat split; vm_compute; reflexivity. Qed.

(** ** Backend B as a function of the world's answers *)

Ltac unfold_run :=
  unfold sendReply, log_Fatalf, log_Println, log_Printf, fmt_Println, bind, ret,
    emit, http_get, os_CreateTemp, os_MkdirAll, io_Copy, os_WriteFile, os_ReadFile,
    os_Remove, client_Do, client_SendMessage, client_DownloadToFile,
    GetAudioMessage in *.

Lemma groq_run (lib : GoLib) (w : World) (audioPath prompt language : string)
      (fs : FS) :
  GroqBackend.TranscribeAudioGroq lib w audioPath prompt language fs =
  if decide (Getenv w "GROQ_API_KEY" = "")
  then (Err "GROQ_API_KEY not set in environment", fs, [])
  else
    match fs !! audioPath with
    | None =>
        (Err ("audio file not found: " +:+ "open " +:+ audioPath
              +:+ ": no such file or directory"), fs, [])
    | Some fileData =>
        match NewRequest_err lib GroqBackend.Endpoint with
        | Some err => (Err err, fs, [])
        | None =>
            let req := GroqBackend.request w audioPath fileData prompt language in
            (GroqBackend.answer lib (http_Do w 60 req), fs, [EHttpDo 60 req])
        end
    end.
Proof.
  unfold GroqBackend.TranscribeAudioGroq, GroqBackend.request, GroqBackend.form,
    GroqBackend.answer.
  unfold_run.
  destruct (decide (Getenv w "GROQ_API_KEY" = "")); [reflexivity |].
  destruct (fs !! audioPath); [| reflexivity].
  destruct (NewRequest_err lib GroqBackend.Endpoint); [reflexivity |].
  unfold GroqBackend.WriteField, GroqBackend.CreateFormFile.
  destruct (decide (prompt = "")), (decide (language = "")); simpl;
    (destruct (http_Do w 60 _) as [resp | err]; [| reflexivity]);
    (destruct (StatusCode resp =? StatusOK)%Z; [| reflexivity]); simpl;
    destruct (json_Decode_text lib (Body resp)); reflexivity.
Qed.

Lemma cf_transcribe_run (lib : GoLib) (w : World) (cf : CFTranscriber)
      (audioPath language : string) (fs : FS) :
  CloudflareBackend.Transcribe lib w cf audioPath language fs =
  match fs !! audioPath with
  | None => (Err ("open " +:+ audioPath +:+ ": no such file or directory"), fs, [])
  | Some content =>
      match NewRequest_err lib (BaseURL cf) with
      | Some err => (Err err, fs, [])
      | None =>
          let req := CloudflareBackend.request cf (base64 content) language in
          (CloudflareBackend.answer lib (http_Do w 30 req), fs, [EHttpDo 30 req])
      end
  end.
Proof.
  unfold CloudflareBackend.Transcribe, CloudflareBackend.encodeAudioFile,
    CloudflareBackend.request, CloudflareBackend.answer.
  unfold_run.
  destruct (fs !! audioPath); [| reflexivity].
  destruct (NewRequest_err lib (BaseURL cf)); [reflexivity |]. simpl.
  destruct (http_Do w 30 _) as [resp | err]; [| reflexivity].
  destruct (StatusCode resp =? StatusOK)%Z; [| reflexivity]. simpl.
  destruct (json_Decode_map lib (Body resp)); reflexivity.
Qed.

Lemma cf_run (lib : GoLib) (w : World) (audioPath model language : string) (fs : FS) :
  CloudflareBackend.CfTranscribe lib w audioPath model language fs =
  if bool_decide (Getenv w "CF_ACCOUNT_ID" = "") || bool_decide (Getenv w "CF_API_KEY" = "")
  then (Err "please set CF_ACCOUNT_ID and CF_API_KEY environment variables", fs, [])
  else
    let cf := CloudflareBackend.NewCFTranscriber
                (Getenv w "CF_ACCOUNT_ID") (Getenv w "CF_API_KEY") model language in
    let '(result, fs', t) := CloudflareBackend.Transcribe lib w cf audioPath language fs in
    (match result with
     | Err err => Err err
     | Ok result =>
         match CloudflareBackend.resultText result with
         | Some text => Ok text
         | None => Err CloudflareBackend.textNotFound
         end
     end, fs', t).
Proof.
  unfold CloudflareBackend.CfTranscribe, CloudflareBackend.resultText.
  destruct (bool_decide (Getenv w "CF_ACCOUNT_ID" = "") || bool_decide (Getenv w "CF_API_KEY" = ""));
    [reflexivity |].
  unfold bind, ret.
  destruct (CloudflareBackend.Transcribe lib w _ audioPath language fs)
    as [[[result | err] fs'] t]; [| rewrite app_nil_r; reflexivity].
  destruct (result !! "result") as [[| | | | | res] |]; try (rewrite app_nil_r; reflexivity).
  destruct (res !! "text") as [[| | | text | |] |]; rewrite app_nil_r; reflexivity.
Qed.

(** ** The pipeline *)

(** The answer of the world that the run is waiting for: the one a
    hypothesis gives, or else a case split. *)
Ltac answer_of t :=
  match goal with
  | H : t = _ |- _ => rewrite H
  | _ => destruct t eqn:?
  end.

Ltac ask :=
  match goal with
  | |- context [Info_IsGroup ?e] => answer_of (Info_IsGroup e)
  | |- context [IsExcluded ?m ?s] => answer_of (IsExcluded m s)
  | |- context [Message_AudioMessage ?e] => answer_of (Message_AudioMessage e)
  | |- context [bool_decide (Info_MediaType ?e = "audio")] =>
      answer_of (bool_decide (Info_MediaType e = "audio"))
  | |- context [MkdirAll_err ?w ?d] => answer_of (MkdirAll_err w d)
  | |- context [DownloadToFile ?w ?m] => answer_of (DownloadToFile w m)
  | |- context [http_Get ?w ?u] => answer_of (http_Get w u)
  | |- context [CreateTemp_rand ?w ?a ?b ?c] => answer_of (CreateTemp_rand w a b c)
  | |- context [Write_err ?w ?p] => answer_of (Write_err w p)
  | |- context [GroqBackend.TranscribeAudioGroq _ _ _ _ _ _] => rewrite groq_run
  | |- context [CloudflareBackend.CfTranscribe _ _ _ _ _ _] => rewrite cf_run
  | |- context [CloudflareBackend.Transcribe _ _ _ _ _ _] => rewrite cf_transcribe_run
  | |- context [bool_decide (Getenv ?w ?k = "")] =>
      destruct (bool_decide (Getenv w k = "")) eqn:?
  | |- context [<[?k := ?v]> ?m !! ?k] => rewrite (lookup_insert_eq m k v)
  | |- context [decide (Getenv ?w ?k = "")] => destruct (decide (Getenv w k = ""))
  | |- context [match ?l with Some _ => _ | None => _ end] =>
      match l with @lookup string string _ _ _ _ => answer_of l end
  | |- context [NewRequest_err ?l ?u] => answer_of (NewRequest_err l u)
  | |- context [http_Do ?w ?t ?r] => answer_of (http_Do w t r)
  | |- context [(StatusCode ?r =? StatusOK)%Z] => answer_of (StatusCode r =? StatusOK)%Z
  | |- context [json_Decode_text ?l ?b] => answer_of (json_Decode_text l b)
  | |- context [json_Decode_map ?l ?b] => answer_of (json_Decode_map l b)
  | |- context [CloudflareBackend.resultText ?r] =>
      answer_of (CloudflareBackend.resultText r)
  | |- context [SendMessage ?w ?c ?t] => answer_of (SendMessage w c t)
  end.

Ltac run := unfold_run; repeat (cbn -[String.append]; ask); cbn -[String.append].

(** What is left at the end of a path: the request that a hypothesis names
    is the one of the path, and the answers agree. *)
Ltac settle :=
  repeat match goal with
         | H : In _ _ |- _ => simpl in H
         | H : _ \/ _ |- _ => destruct H
         | H : False |- _ => destruct H
         | H : @eq Effect _ _ |- _ => first [discriminate H | injection H as ? ?; subst]
         | H : (_ =? _)%Z = true |- _ => apply Z.eqb_eq in H
         | H : (_ =? _)%Z = false |- _ => apply Z.eqb_neq in H
         end;
  try congruence.


(** *** Ignored events *)

Lemma saveAudio_quiet (lib : GoLib) (w : World) (evt : Message) (fs : FS) :
  quiet (effects (WhatsappHandler.saveAudio lib w evt fs)).
Proof.
  unfold quiet, WhatsappHandler.saveAudio, effects.
  run; repeat split; reflexivity.
Qed.

Lemma replies_app (t1 t2 : list Effect) :
  replies (t1 ++ t2) = replies t1 ++ replies t2.
Proof.
  induction t1 as [| e t1 IH]; [reflexivity |].
  destruct e; simpl; rewrite ?IH; reflexivity.
Qed.

Lemma quiet_app (t1 t2 : list Effect) : quiet t1 -> quiet t2 -> quiet (t1 ++ t2).
Proof.
  unfold quiet. intros H1 H2.
  induction t1 as [| e t1 IH]; [exact H2 |].
  destruct e; simpl in *; destruct H1 as (? & ? & ? & ?); try discriminate;
    apply IH; auto.
Qed.

(** The handler of groq_transcriber.go on an event that is not dispatched:
    the first of the three checks that applies ends it with its log line. *)
Lemma groq_handler_checks (lib : GoLib) (w : World)
      (EXCLUDED_NUMBERS : gmap string bool) (evt : Message) (fs : FS) :
  (Info_IsGroup evt = true ->
   GroqTranscriber.handleMessage lib w EXCLUDED_NUMBERS evt fs
   = (tt, fs, [ignoredGroup]))
  /\ (Info_IsGroup evt = false ->
      IsExcluded EXCLUDED_NUMBERS (Info_Sender_User evt) = true ->
      GroqTranscriber.handleMessage lib w EXCLUDED_NUMBERS evt fs
      = (tt, fs, [ignoredSender (Info_Sender_User evt)]))
  /\ (Info_IsGroup evt = false ->
      IsExcluded EXCLUDED_NUMBERS (Info_Sender_User evt) = false ->
      Message_AudioMessage evt = None ->
      GroqTranscriber.handleMessage lib w EXCLUDED_NUMBERS evt fs
      = (tt, fs, [ignoredNonAudio])).
Proof.
  unfold GroqTranscriber.handleMessage, GetAudioMessage.
  repeat split; intros; repeat match goal with H : _ = _ |- _ => rewrite H end;
    reflexivity.
Qed.

(** The handler of whatsapp_handler.go: the block that saves the audio
    comes first; when it does not return, the same three checks follow. *)
Lemma whatsapp_handler_checks (lib : GoLib) (w : World)
      (EXCLUDED_NUMBERS : gmap string bool) (evt : Message) (fs : FS) :
  let saved := WhatsappHandler.saveAudio lib w evt fs in
  (value saved = false ->
   WhatsappHandler.handleMessage lib w EXCLUDED_NUMBERS evt fs
   = (tt, final saved, effects saved))
  /\ (value saved = true -> Info_IsGroup evt = true ->
      WhatsappHandler.handleMessage lib w EXCLUDED_NUMBERS evt fs
      = (tt, final saved, effects saved ++ [ignoredGroup]))
  /\ (value saved = true -> Info_IsGroup evt = false ->
      IsExcluded EXCLUDED_NUMBERS (Info_Sender_User evt) = true ->
      WhatsappHandler.handleMessage lib w EXCLUDED_NUMBERS evt fs
      = (tt, final saved, effects saved ++ [ignoredSender (Info_Sender_User evt)]))
  /\ (value saved = true -> Info_IsGroup evt = false ->
      IsExcluded EXCLUDED_NUMBERS (Info_Sender_User evt) = false ->
      Message_AudioMessage evt = None ->
      WhatsappHandler.handleMessage lib w EXCLUDED_NUMBERS evt fs
      = (tt, final saved, effects saved ++ [ignoredNonAudio])).
Proof.
  unfold WhatsappHandler.handleMessage, GetAudioMessage, bind, value, final, effects.
  destruct (WhatsappHandler.saveAudio lib w evt fs) as [[continue fs1] t1]; simpl.
  repeat split; intros; subst; simpl;
    repeat match goal with H : _ = _ |- _ => rewrite H end;
    simpl; rewrite ?app_nil_r; reflexivity.
Qed.

(** The block that saves the audio is not entered unless the media type is
    ["audio"] and an audio message is present. *)
Lemma saveAudio_skipped (lib : GoLib) (w : World) (evt : Message) (fs : FS) :
  Info_MediaType evt <> "audio" \/ Message_AudioMessage evt = None ->
  WhatsappHandler.saveAudio lib w evt fs = (true, fs, []).
Proof.
  unfold WhatsappHandler.saveAudio. intros [H | H].
  - rewrite bool_decide_eq_false_2 by exact H. reflexivity.
  - rewrite H, andb_comm. reflexivity.
Qed.

(** C1, as amended.  An event of a group, or one without an audio message,
    reaches no backend and gets no reply, in both handlers.  In
    groq_transcriber.go the checks run in the order group, excluded sender,
    audio; in whatsapp_handler.go the same three checks in that order follow
    the block that saves an audio message under downloads, and are not
    reached when that block returns. *)
Theorem ignored_events_reach_no_backend_and_get_no_reply
        (lib : GoLib) (w : World) (EXCLUDED_NUMBERS : gmap string bool)
        (evt : Message) (fs : FS) :
  (Info_IsGroup evt = true \/ Message_AudioMessage evt = None ->
   quiet (effects (GroqTranscriber.handleMessage lib w EXCLUDED_NUMBERS evt fs))
   /\ quiet (effects (WhatsappHandler.handleMessage lib w EXCLUDED_NUMBERS evt fs)))
  /\ ((Info_IsGroup evt = true ->
       GroqTranscriber.handleMessage lib w EXCLUDED_NUMBERS evt fs
       = (tt, fs, [ignoredGroup]))
      /\ (Info_IsGroup evt = false ->
          IsExcluded EXCLUDED_NUMBERS (Info_Sender_User evt) = true ->
          GroqTranscriber.handleMessage lib w EXCLUDED_NUMBERS evt fs
          = (tt, fs, [ignoredSender (Info_Sender_User evt)]))
      /\ (Info_IsGroup evt = false ->
          IsExcluded EXCLUDED_NUMBERS (Info_Sender_User evt) = false ->
          Message_AudioMessage evt = None ->
          GroqTranscriber.handleMessage lib w EXCLUDED_NUMBERS evt fs
          = (tt, fs, [ignoredNonAudio])))
  /\ (let saved := WhatsappHandler.saveAudio lib w evt fs in
      (value saved = false ->
       WhatsappHandler.handleMessage lib w EXCLUDED_NUMBERS evt fs
       = (tt, final saved, effects saved))
      /\ (value saved = true -> Info_IsGroup evt = true ->
          WhatsappHandler.handleMessage lib w EXCLUDED_NUMBERS evt fs
          = (tt, final saved, effects saved ++ [ignoredGroup]))
      /\ (value saved = true -> Info_IsGroup evt = false ->
          IsExcluded EXCLUDED_NUMBERS (Info_Sender_User evt) = true ->
          WhatsappHandler.handleMessage lib w EXCLUDED_NUMBERS evt fs
          = (tt, final saved,
             effects saved ++ [ignoredSender (Info_Sender_User evt)]))
      /\ (value saved = true -> Info_IsGroup evt = false ->
          IsExcluded EXCLUDED_NUMBERS (Info_Sender_User evt) = false ->
          Message_AudioMessage evt = None ->
          WhatsappHandler.handleMessage lib w EXCLUDED_NUMBERS evt fs
          = (tt, final saved, effects saved ++ [ignoredNonAudio]))).
Proof.
  pose proof (groq_handler_checks lib w EXCLUDED_NUMBERS evt fs) as HG.
  pose proof (whatsapp_handler_checks lib w EXCLUDED_NUMBERS evt fs) as HW.
  split; [| split; assumption].
  destruct HG as (G1 & G2 & G3). cbv zeta in HW. destruct HW as (W0 & W1 & W2 & W3).
  pose proof (saveAudio_quiet lib w evt fs) as Hq.
  intros Hev. split.
  - destruct (Info_IsGroup evt) eqn:Hg; [rewrite G1 by reflexivity; repeat split |].
    destruct (IsExcluded EXCLUDED_NUMBERS (Info_Sender_User evt)) eqn:Hx;
      [rewrite G2 by reflexivity; repeat split |].
    destruct Hev as [Hev | Hev]; [discriminate |].
    rewrite G3 by auto. repeat split.
  - destruct (value (WhatsappHandler.saveAudio lib w evt fs)) eqn:Hs;
      [| rewrite W0 by reflexivity; exact Hq].
    destruct (Info_IsGroup evt) eqn:Hg;
      [rewrite W1 by reflexivity; apply quiet_app; [exact Hq | repeat split] |].
    destruct (IsExcluded EXCLUDED_NUMBERS (Info_Sender_User evt)) eqn:Hx;
      [rewrite W2 by reflexivity; apply quiet_app; [exact Hq | repeat split] |].
    destruct Hev as [Hev | Hev]; [discriminate |].
    rewrite W3 by auto. apply quiet_app; [exact Hq | repeat split].
Qed.

Lemma ignored_events_witness :
  quiet (effects (GroqTranscriber.handleMessage Sample.lib
                    (Sample.world Sample.groqEnv 200 Sample.body_oi) ∅
                    Sample.groupEvt Sample.disk))
  /\ quiet (effects (WhatsappHandler.handleMessage Sample.lib
                       (Sample.world Sample.groqEnv 200 Sample.body_oi) ∅
                       Sample.groupEvt Sample.disk)).
Proof.
  apply (proj1 (ignored_events_reach_no_backend_and_get_no_reply
                  Sample.lib (Sample.world Sample.groqEnv 200 Sample.body_oi) ∅
                  Sample.groupEvt Sample.disk)).
  left; reflexivity.
Defined.

(** C1 as the specification words it does not hold for whatsapp_handler.go:
    there a voice message of a group is first written under downloads, and
    the group check, where it is reached, comes after; on a disk that
    refuses the write the handler ends before it. *)
Lemma whatsapp_handler_saves_before_group_check :
  Info_IsGroup Sample.groupEvt = true
  /\ WhatsappHandler.handleMessage Sample.lib
       (Sample.world Sample.groqEnv 200 Sample.body_oi) ∅ Sample.groupEvt ∅
     = (tt, {[ "downloads/3EB0A2.ogg" := "" ]},
        [EPrint "Audio message saved to:" [AStr "downloads/3EB0A2.ogg"];
         ignoredGroup])
  /\ WhatsappHandler.handleMessage Sample.lib
       (Sample.lockedWorld Sample.groqEnv 200 Sample.body_oi) ∅ Sample.groupEvt ∅
     = (tt, ∅, [EPrint "Error creating directory:" [AErr "permission denied"]])
  /\ WhatsappHandler.handleMessage Sample.lib
       (Sample.world Sample.groqEnv 200 Sample.body_oi) ∅ Sample.groupEvt ∅
     <> (tt, ∅, [ignoredGroup])
  /\ GroqTranscriber.handleMessage Sample.lib
       (Sample.world Sample.groqEnv 200 Sample.body_oi) ∅ Sample.groupEvt ∅
     = (tt, ∅, [ignoredGroup]).
Proof.
  split; [reflexivity |]. split; [vm_compute; reflexivity |].
  split; [vm_compute; reflexivity |]. split; [| vm_compute; reflexivity].
  vm_compute. discriminate.
Qed.

(** *** Retrieval *)

Ltac unfold_handlers :=
  unfold GroqTranscriber.handleMessage, GroqTranscriber.processAudioMessage,
    GroqTranscriber.processAudioMessageWith, WhatsappHandler.handleMessage,
    WhatsappHandler.processAudioMessage, WhatsappHandler.processAudioMessageWith,
    WhatsappHandler.saveAudio, GroqBackend.answer, value, final, effects in *.

(** The handler of groq_transcriber.go fetches every dispatched audio
    message with one plain GET of its URL, whatever its media key, and never
    through the transport. *)
Lemma groq_handler_fetches_with_plain_get
      (lib : GoLib) (w : World) (EXCLUDED_NUMBERS : gmap string bool)
      (evt : Message) (fs : FS) (audioMsg : AudioMessage) :
  Info_IsGroup evt = false ->
  IsExcluded EXCLUDED_NUMBERS (Info_Sender_User evt) = false ->
  Message_AudioMessage evt = Some audioMsg ->
  rawGets (effects (GroqTranscriber.handleMessage lib w EXCLUDED_NUMBERS evt fs))
  = [URL audioMsg]
  /\ transportDownloads
       (effects (GroqTranscriber.handleMessage lib w EXCLUDED_NUMBERS evt fs)) = [].
Proof.
  intros Hg Hx Ha. unfold_handlers. unfold GetAudioMessage. rewrite Hg, Hx, Ha.
  run; split; reflexivity.
Qed.

(** The handler of whatsapp_handler.go fetches through the transport and
    never with a plain GET. *)
Lemma whatsapp_handler_fetches_through_transport
      (lib : GoLib) (w : World) (EXCLUDED_NUMBERS : gmap string bool)
      (evt : Message) (fs : FS) (audioMsg : AudioMessage) :
  value (WhatsappHandler.saveAudio lib w evt fs) = true ->
  Info_IsGroup evt = false ->
  IsExcluded EXCLUDED_NUMBERS (Info_Sender_User evt) = false ->
  Message_AudioMessage evt = Some audioMsg ->
  rawGets (effects (WhatsappHandler.handleMessage lib w EXCLUDED_NUMBERS evt fs)) = []
  /\ transportDownloads
       (effects (WhatsappHandler.handleMessage lib w EXCLUDED_NUMBERS evt fs))
     = [Some audioMsg].
Proof.
  intros Hs Hg Hx Ha. revert Hs. unfold_handlers. unfold GetAudioMessage.
  rewrite Hg, Hx, Ha.
  run; intros; try discriminate; split; reflexivity.
Qed.

(** C2.  On a voice message that carries a media key, the handler of
    groq_transcriber.go makes one plain GET of the media URL and no download
    through the transport, and hands what the GET returned to the backend;
    the handler of whatsapp_handler.go downloads through the transport. *)
Theorem groq_handler_gets_encrypted_media_raw :
  MediaKey Sample.voice <> ""
  /\ rawGets (effects (GroqTranscriber.handleMessage Sample.lib
                         (Sample.world Sample.groqEnv 200 Sample.body_oi) ∅
                         Sample.evt Sample.disk))
     = [URL Sample.voice]
  /\ transportDownloads
       (effects (GroqTranscriber.handleMessage Sample.lib
                   (Sample.world Sample.groqEnv 200 Sample.body_oi) ∅
                   Sample.evt Sample.disk)) = []
  /\ (exists req rest,
        backendRequests
          (effects (GroqTranscriber.handleMessage Sample.lib
                      (Sample.world Sample.groqEnv 200 Sample.body_oi) ∅
                      Sample.evt Sample.disk)) = [req]
        /\ ReqBody req
           = Multipart (FormFile "file" "audio-4096-1234567.webm" "ciphertext" :: rest))
  /\ rawGets (effects (WhatsappHandler.handleMessage Sample.lib
                         (Sample.world Sample.groqEnv 200 Sample.body_oi) ∅
                         Sample.evt Sample.disk)) = []
  /\ transportDownloads
       (effects (WhatsappHandler.handleMessage Sample.lib
                   (Sample.world Sample.groqEnv 200 Sample.body_oi) ∅
                   Sample.evt Sample.disk)) = [Some Sample.voice].
Proof.
  split; [discriminate |].
  split; [vm_compute; reflexivity |].
  split; [vm_compute; reflexivity |].
  split; [eexists; eexists; split; vm_compute; reflexivity |].
  split; vm_compute; reflexivity.
Qed.

(** *** The temporary file *)

(** groq_transcriber.go: once the temporary file is created, it is gone at
    the end only when the backend returned a transcript; it stays, empty,
    when the copy fails, and with the audio in it when the backend fails. *)
Lemma groq_handler_temp_file (lib : GoLib) (w : World)
      (EXCLUDED_NUMBERS : gmap string bool) (evt : Message) (fs : FS)
      (audioMsg : AudioMessage) (resp : Response) (rnd : string) :
  Info_IsGroup evt = false ->
  IsExcluded EXCLUDED_NUMBERS (Info_Sender_User evt) = false ->
  Message_AudioMessage evt = Some audioMsg ->
  http_Get w (URL audioMsg) = Ok resp ->
  CreateTemp_rand w MESSAGES_DIR ("audio-" +:+ itoa (FileLength audioMsg) +:+ "-")
                  ".webm" = Ok rnd ->
  let tempFilePath :=
    MESSAGES_DIR +:+ "/" +:+ ("audio-" +:+ itoa (FileLength audioMsg) +:+ "-")
                 +:+ rnd +:+ ".webm" in
  final (GroqTranscriber.handleMessage lib w EXCLUDED_NUMBERS evt fs) !! tempFilePath
  = match Write_err w tempFilePath with
    | Some _ => Some ""
    | None =>
        if is_ok (value (GroqBackend.TranscribeAudioGroq lib w tempFilePath
                           WHISPER_PROMPT "pt"
                           (<[tempFilePath := Body resp]>
                              (<[tempFilePath := ""]> fs))))
        then None else Some (Body resp)
    end.
Proof.
  intros Hg Hx Ha Hget Htmp. unfold_handlers. unfold GetAudioMessage.
  rewrite Hg, Hx, Ha. unfold_run. cbn -[String.append].
  rewrite Hget. cbn -[String.append]. rewrite Htmp. cbn -[String.append].
  destruct (Write_err w _) eqn:Hw; cbn -[String.append];
    [apply lookup_insert_eq |].
  rewrite groq_run, lookup_insert_eq.
  destruct (decide (Getenv w "GROQ_API_KEY" = "")); cbn -[String.append];
    [apply lookup_insert_eq |].
  destruct (NewRequest_err lib GroqBackend.Endpoint); cbn -[String.append];
    [apply lookup_insert_eq |].
  destruct (http_Do w 60 _) as [r | e]; cbn -[String.append];
    [| apply lookup_insert_eq].
  destruct (StatusCode r =? StatusOK)%Z; cbn -[String.append];
    [| apply lookup_insert_eq].
  destruct (json_Decode_text lib (Body r)); cbn -[String.append];
    [| apply lookup_insert_eq].
  rewrite lookup_insert_eq. cbn -[String.append].
  destruct (SendMessage w _ _); cbn -[String.append]; apply lookup_delete_eq.
Qed.

(** whatsapp_handler.go: the temporary file is never removed. *)
Lemma whatsapp_handler_temp_file (lib : GoLib) (w : World)
      (EXCLUDED_NUMBERS : gmap string bool) (evt : Message) (fs : FS)
      (audioMsg : AudioMessage) (got : Downloaded) (rnd : string) :
  value (WhatsappHandler.saveAudio lib w evt fs) = true ->
  Info_IsGroup evt = false ->
  IsExcluded EXCLUDED_NUMBERS (Info_Sender_User evt) = false ->
  Message_AudioMessage evt = Some audioMsg ->
  DownloadToFile w (Some audioMsg) = Some got ->
  CreateTemp_rand w MESSAGES_DIR "audio-%!d(MISSING)-" ".webm" = Ok rnd ->
  let tempFilePath :=
    MESSAGES_DIR +:+ "/" +:+ "audio-%!d(MISSING)-" +:+ rnd +:+ ".webm" in
  final (WhatsappHandler.handleMessage lib w EXCLUDED_NUMBERS evt fs) !! tempFilePath
  = match Write_err w tempFilePath with
    | Some _ => Some ""
    | None => Some (dl_stream got)
    end.
Proof.
  intros Hs Hg Hx Ha Hdl Htmp. revert Hs. unfold_handlers. unfold GetAudioMessage.
  rewrite Hg, Hx, Ha.
  run; intros; try discriminate; rewrite ?lookup_insert_eq; congruence.
Qed.

(** C3.  In groq_transcriber.go a backend that answers 500 leaves the
    temporary file on the disk, and so does a copy that fails; the file is
    removed only after a transcript came back.  In whatsapp_handler.go the
    file is still there after the reply was sent. *)
Theorem temp_file_outlives_failed_dispatch :
  final (GroqTranscriber.handleMessage Sample.lib
           (Sample.world Sample.groqEnv 500 "boom") ∅ Sample.evt Sample.disk)
    !! "messages/audio-4096-1234567.webm" = Some "ciphertext"
  /\ final (GroqTranscriber.handleMessage Sample.lib
              (Sample.fullDiskWorld Sample.groqEnv 200 Sample.body_oi) ∅
              Sample.evt Sample.disk)
       !! "messages/audio-4096-1234567.webm" = Some ""
  /\ final (GroqTranscriber.handleMessage Sample.lib
              (Sample.world Sample.groqEnv 200 Sample.body_oi) ∅
              Sample.evt Sample.disk)
       !! "messages/audio-4096-1234567.webm" = None
  /\ replies (effects (WhatsappHandler.handleMessage Sample.lib
                         (Sample.world Sample.groqEnv 200 Sample.body_oi) ∅
                         Sample.evt Sample.disk))
     = [(Info_Chat_ID Sample.evt, replyText "oi")]
  /\ final (WhatsappHandler.handleMessage Sample.lib
              (Sample.world Sample.groqEnv 200 Sample.body_oi) ∅
              Sample.evt Sample.disk)
       !! "messages/audio-%!d(MISSING)-1234567.webm" = Some "opus".
Proof. repeat split; vm_compute; reflexivity. Qed.

(** *** The backends on an answer that is not 200 *)

Lemma groq_backend_not_ok (lib : GoLib) (w : World)
      (audioPath prompt language : string) (fs : FS) (fileData : string)
      (resp : Response) :
  Getenv w "GROQ_API_KEY" <> "" ->
  fs !! audioPath = Some fileData ->
  NewRequest_err lib GroqBackend.Endpoint = None ->
  http_Do w 60 (GroqBackend.request w audioPath fileData prompt language) = Ok resp ->
  StatusCode resp <> StatusOK ->
  GroqBackend.TranscribeAudioGroq lib w audioPath prompt language fs
  = (Err ("transcription failed: " +:+ Body resp), fs,
     [EHttpDo 60 (GroqBackend.request w audioPath fileData prompt language)]).
Proof.
  intros Hkey Hfile Hnew Hdo Hst. rewrite groq_run, Hfile, Hnew.
  destruct (decide (Getenv w "GROQ_API_KEY" = "")); [contradiction |].
  cbv zeta. rewrite Hdo. unfold GroqBackend.answer.
  rewrite (proj2 (Z.eqb_neq _ _) Hst). reflexivity.
Qed.

Lemma cf_backend_not_ok (lib : GoLib) (w : World) (cf : CFTranscriber)
      (audioPath language : string) (fs : FS) (content : string) (resp : Response) :
  fs !! audioPath = Some content ->
  NewRequest_err lib (BaseURL cf) = None ->
  http_Do w 30 (CloudflareBackend.request cf (base64 content) language) = Ok resp ->
  StatusCode resp <> StatusOK ->
  CloudflareBackend.Transcribe lib w cf audioPath language fs
  = (Err ("transcription failed: " +:+ Body resp), fs,
     [EHttpDo 30 (CloudflareBackend.request cf (base64 content) language)]).
Proof.
  intros Hfile Hnew Hdo Hst. rewrite cf_transcribe_run, Hfile, Hnew.
  cbv zeta. rewrite Hdo. unfold CloudflareBackend.answer.
  rewrite (proj2 (Z.eqb_neq _ _) Hst). reflexivity.
Qed.

(** Whatever function is called as the backend, its error ends
    [processAudioMessage] without a reply. *)
Lemma failing_backend_gets_no_reply (lib : GoLib) (w : World)
      (backend : string -> M (Result string)) (evt : Message) (fs : FS) :
  (forall path fs', replies (effects (backend path fs')) = []) ->
  (forall path fs', is_ok (value (backend path fs')) = false) ->
  replies (effects (GroqTranscriber.processAudioMessageWith w backend evt fs)) = []
  /\ replies (effects (WhatsappHandler.processAudioMessageWith w backend evt fs)) = [].
Proof.
  intros Hquiet Hfail. unfold_handlers.
  split; (run; try reflexivity);
    match goal with |- context [backend ?p ?f] =>
      specialize (Hquiet p f); specialize (Hfail p f);
      destruct (backend p f) as [[[t | e] fs2] tb] end;
    try discriminate Hfail;
    cbn -[String.append] in *; rewrite replies_app, Hquiet; reflexivity.
Qed.

Lemma handlers_no_reply_on_not_ok (lib : GoLib) (w : World)
      (EXCLUDED_NUMBERS : gmap string bool) (evt : Message) (fs : FS)
      (timeout : Z) (req : Request) (resp : Response) :
  http_Do w timeout req = Ok resp ->
  StatusCode resp <> StatusOK ->
  (In (EHttpDo timeout req)
      (effects (GroqTranscriber.handleMessage lib w EXCLUDED_NUMBERS evt fs)) ->
   replies (effects (GroqTranscriber.handleMessage lib w EXCLUDED_NUMBERS evt fs)) = [])
  /\ (In (EHttpDo timeout req)
         (effects (WhatsappHandler.handleMessage lib w EXCLUDED_NUMBERS evt fs)) ->
      replies (effects (WhatsappHandler.handleMessage lib w EXCLUDED_NUMBERS evt fs))
      = []).
Proof.
  intros Hdo Hst. unfold_handlers.
  split; run; try reflexivity; intros Hin; exfalso; settle.
Qed.

Lemma handlers_with_cloudflare_no_reply_on_not_ok (lib : GoLib) (w : World)
      (model language : string) (evt : Message) (fs : FS)
      (timeout : Z) (req : Request) (resp : Response) :
  let backend := fun path => CloudflareBackend.CfTranscribe lib w path model language in
  http_Do w timeout req = Ok resp ->
  StatusCode resp <> StatusOK ->
  (In (EHttpDo timeout req)
      (effects (GroqTranscriber.processAudioMessageWith w backend evt fs)) ->
   replies (effects (GroqTranscriber.processAudioMessageWith w backend evt fs)) = [])
  /\ (In (EHttpDo timeout req)
         (effects (WhatsappHandler.processAudioMessageWith w backend evt fs)) ->
      replies (effects (WhatsappHandler.processAudioMessageWith w backend evt fs))
      = []).
Proof.
  intros backend Hdo Hst. subst backend. unfold_handlers.
  unfold CloudflareBackend.answer.
  split; run; try reflexivity; intros Hin; exfalso; settle.
Qed.

Lemma cf_helper_not_ok (lib : GoLib) (w : World) (audioPath model language : string)
      (fs : FS) (content : string) (resp : Response) :
  let cf := CloudflareBackend.NewCFTranscriber
              (Getenv w "CF_ACCOUNT_ID") (Getenv w "CF_API_KEY") model language in
  Getenv w "CF_ACCOUNT_ID" <> "" ->
  Getenv w "CF_API_KEY" <> "" ->
  fs !! audioPath = Some content ->
  NewRequest_err lib (BaseURL cf) = None ->
  http_Do w 30 (CloudflareBackend.request cf (base64 content) language) = Ok resp ->
  StatusCode resp <> StatusOK ->
  CloudflareBackend.CfTranscribe lib w audioPath model language fs
  = (Err ("transcription failed: " +:+ Body resp), fs,
     [EHttpDo 30 (CloudflareBackend.request cf (base64 content) language)]).
Proof.
  intros cf Hacc Htok Hfile Hnew Hdo Hst. rewrite cf_run.
  rewrite (bool_decide_eq_false_2 _ Hacc), (bool_decide_eq_false_2 _ Htok).
  cbv zeta. fold cf.
  rewrite (cf_backend_not_ok lib w cf audioPath language fs content resp)
    by assumption.
  reflexivity.
Qed.

(** C4.  On an answer whose status is not 200, [TranscribeAudioGroq],
    [CFTranscriber.Transcribe] and [CfTranscribe] return the error
    "transcription failed: " followed by the body of the answer, and no
    transcript; the handlers, with either backend at the call, send no
    reply for that event. *)
Theorem not_ok_answer_is_error_with_body_and_no_reply
        (lib : GoLib) (w : World) (resp : Response) :
  StatusCode resp <> StatusOK ->
  (forall audioPath prompt language fs fileData,
      Getenv w "GROQ_API_KEY" <> "" ->
      fs !! audioPath = Some fileData ->
      NewRequest_err lib GroqBackend.Endpoint = None ->
      http_Do w 60 (GroqBackend.request w audioPath fileData prompt language)
      = Ok resp ->
      value (GroqBackend.TranscribeAudioGroq lib w audioPath prompt language fs)
      = Err ("transcription failed: " +:+ Body resp))
  /\ (forall cf audioPath language fs content,
         fs !! audioPath = Some content ->
         NewRequest_err lib (BaseURL cf) = None ->
         http_Do w 30 (CloudflareBackend.request cf (base64 content) language)
         = Ok resp ->
         value (CloudflareBackend.Transcribe lib w cf audioPath language fs)
         = Err ("transcription failed: " +:+ Body resp))
  /\ (forall audioPath model language fs content,
         let cf := CloudflareBackend.NewCFTranscriber
                     (Getenv w "CF_ACCOUNT_ID") (Getenv w "CF_API_KEY")
                     model language in
         Getenv w "CF_ACCOUNT_ID" <> "" ->
         Getenv w "CF_API_KEY" <> "" ->
         fs !! audioPath = Some content ->
         NewRequest_err lib (BaseURL cf) = None ->
         http_Do w 30 (CloudflareBackend.request cf (base64 content) language)
         = Ok resp ->
         value (CloudflareBackend.CfTranscribe lib w audioPath model language fs)
         = Err ("transcription failed: " +:+ Body resp))
  /\ (forall EXCLUDED_NUMBERS evt fs timeout req,
         http_Do w timeout req = Ok resp ->
         (In (EHttpDo timeout req)
             (effects (GroqTranscriber.handleMessage lib w EXCLUDED_NUMBERS evt fs)) ->
          replies (effects (GroqTranscriber.handleMessage lib w EXCLUDED_NUMBERS evt fs))
          = [])
         /\ (In (EHttpDo timeout req)
                (effects (WhatsappHandler.handleMessage lib w EXCLUDED_NUMBERS evt fs)) ->
             replies (effects (WhatsappHandler.handleMessage lib w EXCLUDED_NUMBERS
                                 evt fs)) = []))
  /\ (forall model language evt fs timeout req,
         let backend :=
           fun path => CloudflareBackend.CfTranscribe lib w path model language in
         http_Do w timeout req = Ok resp ->
         (In (EHttpDo timeout req)
             (effects (GroqTranscriber.processAudioMessageWith w backend evt fs)) ->
          replies (effects (GroqTranscriber.processAudioMessageWith w backend evt fs))
          = [])
         /\ (In (EHttpDo timeout req)
                (effects (WhatsappHandler.processAudioMessageWith w backend evt fs)) ->
             replies (effects (WhatsappHandler.processAudioMessageWith w backend
                                 evt fs)) = [])).
Proof.
  intros Hst. repeat apply conj.
  - intros. erewrite groq_backend_not_ok by eassumption. reflexivity.
  - intros. erewrite cf_backend_not_ok by eassumption. reflexivity.
  - intros. subst cf. erewrite cf_helper_not_ok by eassumption. reflexivity.
  - intros. apply handlers_no_reply_on_not_ok with (resp := resp); assumption.
  - intros. subst backend.
    apply handlers_with_cloudflare_no_reply_on_not_ok with (resp := resp); assumption.
Qed.

Lemma not_ok_answer_witness :
  value (GroqBackend.TranscribeAudioGroq Sample.lib
           (Sample.world Sample.groqEnv 500 "boom") "voice.ogg" WHISPER_PROMPT "pt"
           Sample.disk)
  = Err "transcription failed: boom"
  /\ value (CloudflareBackend.CfTranscribe Sample.lib
              (Sample.world Sample.cfEnv 500 "boom") "voice.ogg" "" "pt" Sample.disk)
     = Err "transcription failed: boom"
  /\ replies (effects (GroqTranscriber.handleMessage Sample.lib
                         (Sample.world Sample.groqEnv 500 "boom") ∅
                         Sample.evt Sample.disk)) = [].
Proof.
  assert (Hst : StatusCode {| StatusCode := 500; Body := "boom" |} <> StatusOK)
    by discriminate.
  split; [| split].
  - apply (proj1 (not_ok_answer_is_error_with_body_and_no_reply
                    Sample.lib (Sample.world Sample.groqEnv 500 "boom") _ Hst)
             "voice.ogg" WHISPER_PROMPT "pt" Sample.disk "opus");
      [discriminate | reflexivity | reflexivity | reflexivity].
  - apply (proj1 (proj2 (proj2 (not_ok_answer_is_error_with_body_and_no_reply
                    Sample.lib (Sample.world Sample.cfEnv 500 "boom") _ Hst)))
             "voice.ogg" "" "pt" Sample.disk "opus");
      [discriminate | discriminate | reflexivity | reflexivity | reflexivity].
  - apply (proj1 (proj1 (proj2 (proj2 (proj2
             (not_ok_answer_is_error_with_body_and_no_reply
                Sample.lib (Sample.world Sample.groqEnv 500 "boom") _ Hst))))
             ∅ Sample.evt Sample.disk 60%Z
             (GroqBackend.request (Sample.world Sample.groqEnv 500 "boom")
                "messages/audio-4096-1234567.webm" "ciphertext" WHISPER_PROMPT "pt")
             eq_refl)).
    vm_compute. do 3 right. left. reflexivity.
Defined.

(** *** Backend A on an answer of status 200 *)

Lemma cf_helper_ok (lib : GoLib) (w : World) (audioPath model language : string)
      (fs : FS) (content : string) (resp : Response) :
  let cf := CloudflareBackend.NewCFTranscriber
              (Getenv w "CF_ACCOUNT_ID") (Getenv w "CF_API_KEY") model language in
  Getenv w "CF_ACCOUNT_ID" <> "" ->
  Getenv w "CF_API_KEY" <> "" ->
  fs !! audioPath = Some content ->
  NewRequest_err lib (BaseURL cf) = None ->
  http_Do w 30 (CloudflareBackend.request cf (base64 content) language) = Ok resp ->
  StatusCode resp = StatusOK ->
  CloudflareBackend.CfTranscribe lib w audioPath model language fs
  = (match json_Decode_map lib (Body resp) with
     | Err err => Err err
     | Ok result =>
         match CloudflareBackend.resultText result with
         | Some text => Ok text
         | None => Err CloudflareBackend.textNotFound
         end
     end, fs,
     [EHttpDo 30 (CloudflareBackend.request cf (base64 content) language)]).
Proof.
  intros cf Hacc Htok Hfile Hnew Hdo Hst. rewrite cf_run.
  rewrite (bool_decide_eq_false_2 _ Hacc), (bool_decide_eq_false_2 _ Htok).
  cbv zeta. fold cf. rewrite cf_transcribe_run, Hfile, Hnew. cbv zeta.
  rewrite Hdo. unfold CloudflareBackend.answer.
  rewrite (proj2 (Z.eqb_eq _ _) Hst). reflexivity.
Qed.

Lemma resultText_Some (result : gmap string JSON) (text : string) :
  CloudflareBackend.resultText result = Some text <->
  exists res, result !! "result" = Some (JObject res)
              /\ res !! "text" = Some (JString text).
Proof.
  unfold CloudflareBackend.resultText. split.
  - destruct (result !! "result") as [[| | | | | res] |]; try discriminate.
    destruct (res !! "text") as [[| | | s | |] |] eqn:Ht; try discriminate.
    intros [= <-]. exists res. split; [reflexivity | exact Ht].
  - intros (res & -> & ->). reflexivity.
Qed.

(** C5.  On an answer of status 200 whose body decodes to an object with
    an object [result] that has a string [text], [CfTranscribe] returns that
    string; when the decoded body has no string at [result.text], as for
    [{"result":{}}], it returns the error "transcription text not found in
    response"; a body that does not decode gives the decoder's error.  In
    each case the file system is left as it was. *)
Theorem cloudflare_ok_answer_gives_text_or_shape_error
        (lib : GoLib) (w : World) (audioPath model language : string)
        (fs : FS) (content : string) (resp : Response) :
  let cf := CloudflareBackend.NewCFTranscriber
              (Getenv w "CF_ACCOUNT_ID") (Getenv w "CF_API_KEY") model language in
  let run := CloudflareBackend.CfTranscribe lib w audioPath model language fs in
  Getenv w "CF_ACCOUNT_ID" <> "" ->
  Getenv w "CF_API_KEY" <> "" ->
  fs !! audioPath = Some content ->
  NewRequest_err lib (BaseURL cf) = None ->
  http_Do w 30 (CloudflareBackend.request cf (base64 content) language) = Ok resp ->
  StatusCode resp = StatusOK ->
  (forall result res text,
      json_Decode_map lib (Body resp) = Ok result ->
      result !! "result" = Some (JObject res) ->
      res !! "text" = Some (JString text) ->
      value run = Ok text)
  /\ (forall result,
         json_Decode_map lib (Body resp) = Ok result ->
         (forall res text, result !! "result" = Some (JObject res) ->
                           res !! "text" <> Some (JString text)) ->
         value run = Err CloudflareBackend.textNotFound)
  /\ (json_Decode_map lib (Body resp)
      = Ok {[ "result" := JObject ∅ ]} ->
      value run = Err CloudflareBackend.textNotFound)
  /\ (forall err, json_Decode_map lib (Body resp) = Err err -> value run = Err err)
  /\ final run = fs.
Proof.
  intros cf run Hacc Htok Hfile Hnew Hdo Hst. subst run.
  rewrite (cf_helper_ok lib w audioPath model language fs content resp)
    by assumption.
  unfold value, final; cbn [fst snd].
  assert (Hshape : forall result,
             json_Decode_map lib (Body resp) = Ok result ->
             (forall res text, result !! "result" = Some (JObject res) ->
                               res !! "text" <> Some (JString text)) ->
             match json_Decode_map lib (Body resp) with
             | Err err => Err err
             | Ok result =>
                 match CloudflareBackend.resultText result with
                 | Some text => Ok text
                 | None => Err CloudflareBackend.textNotFound
                 end
             end = Err CloudflareBackend.textNotFound).
  { intros result Hdec Hno. rewrite Hdec.
    destruct (CloudflareBackend.resultText result) as [text |] eqn:Ht;
      [| reflexivity].
    apply resultText_Some in Ht as (res & Hr & Htext).
    exfalso. exact (Hno res text Hr Htext). }
  repeat apply conj.
  - intros result res text Hdec Hr Ht. rewrite Hdec.
    rewrite (proj2 (resultText_Some result text)); [reflexivity |].
    exists res. split; assumption.
  - exact Hshape.
  - intros Hdec. apply (Hshape _ Hdec). intros res text Hr.
    rewrite lookup_singleton_eq in Hr. injection Hr as <-.
    rewrite lookup_empty. discriminate.
  - intros err Hdec. rewrite Hdec. reflexivity.
  - reflexivity.
Qed.

Lemma cloudflare_ok_answer_witness :
  value (CloudflareBackend.CfTranscribe Sample.lib
           (Sample.world Sample.cfEnv 200 Sample.body_hello) "voice.ogg" "" "pt"
           Sample.disk) = Ok "hello"
  /\ value (CloudflareBackend.CfTranscribe Sample.lib
              (Sample.world Sample.cfEnv 200 Sample.body_empty_result)
              "voice.ogg" "" "pt" Sample.disk)
     = Err "transcription text not found in response".
Proof.
  split.
  - apply (proj1 (cloudflare_ok_answer_gives_text_or_shape_error
                    Sample.lib (Sample.world Sample.cfEnv 200 Sample.body_hello)
                    "voice.ogg" "" "pt" Sample.disk "opus"
                    {| StatusCode := 200; Body := Sample.body_hello |}
                    ltac:(discriminate) ltac:(discriminate)
                    eq_refl eq_refl eq_refl eq_refl)
             {[ "result" := JObject {[ "text" := JString "hello" ]} ]}
             {[ "text" := JString "hello" ]} "hello");
      vm_compute; reflexivity.
  - apply (proj1 (proj2 (proj2 (cloudflare_ok_answer_gives_text_or_shape_error
                    Sample.lib
                    (Sample.world Sample.cfEnv 200 Sample.body_empty_result)
                    "voice.ogg" "" "pt" Sample.disk "opus"
                    {| StatusCode := 200; Body := Sample.body_empty_result |}
                    ltac:(discriminate) ltac:(discriminate)
                    eq_refl eq_refl eq_refl eq_refl)))).
    vm_compute; reflexivity.
Defined.

(** *** The reply *)

(** A backend that always returns [t], wired at the call of either handler:
    every reply that is sent is the template on the trimmed [t]. *)
Lemma reply_to_mocked_backend (w : World) (backend : string -> M (Result string))
      (t : string) (evt : Message) (fs : FS) :
  (forall path fs', value (backend path fs') = Ok t
                    /\ replies (effects (backend path fs')) = []) ->
  (forall reply,
      In reply (replies (effects (GroqTranscriber.processAudioMessageWith
                                    w backend evt fs))) ->
      reply = (Info_Chat_ID evt, replyText (TrimSpace t)))
  /\ (forall reply,
         In reply (replies (effects (WhatsappHandler.processAudioMessageWith
                                       w backend evt fs))) ->
         reply = (Info_Chat_ID evt, replyText (TrimSpace t))).
Proof.
  intros Hmock. unfold_handlers.
  split; intros reply; (run; try (intros []));
    match goal with |- context [backend ?p ?f] =>
      destruct (Hmock p f) as [Hv Hq]; unfold value, effects in Hv, Hq;
      destruct (backend p f) as [[r fs2] tb] end;
    cbn [fst snd] in Hv, Hq; subst r; run;
    rewrite ?replies_app, ?Hq; cbn -[String.append];
    intros [<- | []]; reflexivity.
Qed.

(** C7.  When the backend call of a run answered 200 with a body that
    decodes to the transcript [t], the run sends exactly one reply, to the
    chat of the event, and its text is the template, a bold label, an empty
    line and the body between underscores, on [t] without its leading and
    trailing white space. *)
Theorem reply_is_template_on_trimmed_transcript
        (lib : GoLib) (w : World) (EXCLUDED_NUMBERS : gmap string bool)
        (evt : Message) (fs : FS) (timeout : Z) (req : Request) (resp : Response)
        (t : string) :
  http_Do w timeout req = Ok resp ->
  StatusCode resp = StatusOK ->
  json_Decode_text lib (Body resp) = Ok t ->
  (In (EHttpDo timeout req)
      (effects (GroqTranscriber.handleMessage lib w EXCLUDED_NUMBERS evt fs)) ->
   replies (effects (GroqTranscriber.handleMessage lib w EXCLUDED_NUMBERS evt fs))
   = [(Info_Chat_ID evt,
       "*Transcrição automática:*" +:+ LF +:+ LF +:+ "_" +:+ TrimSpace t +:+ "_")])
  /\ (In (EHttpDo timeout req)
         (effects (WhatsappHandler.handleMessage lib w EXCLUDED_NUMBERS evt fs)) ->
      replies (effects (WhatsappHandler.handleMessage lib w EXCLUDED_NUMBERS evt fs))
      = [(Info_Chat_ID evt,
          "*Transcrição automática:*" +:+ LF +:+ LF +:+ "_" +:+ TrimSpace t +:+ "_")])
  /\ spaceWidth (TrimSpace t) = 0
  /\ spaceWidthRev (String.rev (TrimSpace t)) = 0.
Proof.
  intros Hdo Hst Hdec.
  split; [| split; [| apply TrimSpace_no_surrounding_space]].
  all: unfold_handlers.
  all: run; intros Hin; try (exfalso; settle; fail);
    settle;
    repeat match goal with
           | H1 : ?x = Ok _, H2 : ?x = Ok _ |- _ => rewrite H1 in H2; injection H2 as ?; subst
           end;
    try reflexivity; try congruence.
Qed.

Lemma reply_is_template_witness :
  replies (effects (GroqTranscriber.handleMessage Sample.lib
                      (Sample.world Sample.groqEnv 200 Sample.body_oi) ∅
                      Sample.evt Sample.disk))
  = [("5511999990000@s.whatsapp.net",
      "*Transcrição automática:*" +:+ LF +:+ LF +:+ "_oi_")]
  /\ replies (effects (WhatsappHandler.handleMessage Sample.lib
                         (Sample.world Sample.groqEnv 200 Sample.body_oi) ∅
                         Sample.evt Sample.disk))
     = [("5511999990000@s.whatsapp.net",
         "*Transcrição automática:*" +:+ LF +:+ LF +:+ "_oi_")].
Proof.
  split.
  - apply (proj1 (reply_is_template_on_trimmed_transcript
                    Sample.lib (Sample.world Sample.groqEnv 200 Sample.body_oi) ∅
                    Sample.evt Sample.disk 60%Z
                    (GroqBackend.request
                       (Sample.world Sample.groqEnv 200 Sample.body_oi)
                       "messages/audio-4096-1234567.webm" "ciphertext"
                       WHISPER_PROMPT "pt")
                    {| StatusCode := 200; Body := Sample.body_oi |} "  oi  "
                    eq_refl eq_refl eq_refl)).
    vm_compute. do 3 right. left. reflexivity.
  - apply (proj1 (proj2 (reply_is_template_on_trimmed_transcript
                    Sample.lib (Sample.world Sample.groqEnv 200 Sample.body_oi) ∅
                    Sample.evt Sample.disk 60%Z
                    (GroqBackend.request
                       (Sample.world Sample.groqEnv 200 Sample.body_oi)
                       "voice.ogg" "opus" WHISPER_PROMPT "pt")
                    {| StatusCode := 200; Body := Sample.body_oi |} "  oi  "
                    eq_refl eq_refl eq_refl))).
    vm_compute. do 4 right. left. reflexivity.
Defined.

(** *** Credentials *)

Lemma main_ignores_environment (w : World) (env : string -> string) (fs : FS) :
  GroqTranscriber.main (withEnv w env) fs = GroqTranscriber.main w fs
  /\ WhatsappHandler.main (withEnv w env) fs = WhatsappHandler.main w fs.
Proof. split; reflexivity. Qed.

(** C8, as amended.  [main] does not read the credentials: it starts, or
    fails, the same whatever the environment holds.  A missing credential
    is found by the transcription call, which then returns its error before
    it reads the audio or contacts the backend, and the event gets no
    reply. *)
Theorem missing_credential_is_found_by_the_call
        (lib : GoLib) (w : World) :
  (forall env fs,
      GroqTranscriber.main (withEnv w env) fs = GroqTranscriber.main w fs
      /\ WhatsappHandler.main (withEnv w env) fs = WhatsappHandler.main w fs)
  /\ (Getenv w "GROQ_API_KEY" = "" ->
      forall audioPath prompt language fs,
        GroqBackend.TranscribeAudioGroq lib w audioPath prompt language fs
        = (Err "GROQ_API_KEY not set in environment", fs, []))
  /\ (Getenv w "CF_ACCOUNT_ID" = "" \/ Getenv w "CF_API_KEY" = "" ->
      forall audioPath model language fs,
        CloudflareBackend.CfTranscribe lib w audioPath model language fs
        = (Err "please set CF_ACCOUNT_ID and CF_API_KEY environment variables",
           fs, []))
  /\ (Getenv w "GROQ_API_KEY" = "" ->
      forall EXCLUDED_NUMBERS evt fs,
        (backendRequests
           (effects (GroqTranscriber.handleMessage lib w EXCLUDED_NUMBERS evt fs)) = []
         /\ replies
              (effects (GroqTranscriber.handleMessage lib w EXCLUDED_NUMBERS evt fs))
            = [])
        /\ (backendRequests
              (effects (WhatsappHandler.handleMessage lib w EXCLUDED_NUMBERS evt fs))
            = []
            /\ replies
                 (effects (WhatsappHandler.handleMessage lib w EXCLUDED_NUMBERS evt fs))
               = [])).
Proof.
  repeat apply conj.
  - intros env fs. apply main_ignores_environment.
  - intros Hkey audioPath prompt language fs. rewrite groq_run.
    destruct (decide (Getenv w "GROQ_API_KEY" = "")); [reflexivity | contradiction].
  - intros Hcf audioPath model language fs. rewrite cf_run.
    destruct Hcf as [-> | ->]; [reflexivity |].
    rewrite orb_comm. reflexivity.
  - intros Hkey EXCLUDED_NUMBERS evt fs. unfold_handlers.
    repeat split; run; try reflexivity; contradiction.
Qed.

Lemma missing_credential_witness :
  GroqBackend.TranscribeAudioGroq Sample.lib
    (Sample.world ∅ 200 Sample.body_oi) "voice.ogg" WHISPER_PROMPT "pt" Sample.disk
  = (Err "GROQ_API_KEY not set in environment", Sample.disk, [])
  /\ CloudflareBackend.CfTranscribe Sample.lib
       (Sample.world ∅ 200 Sample.body_hello) "voice.ogg" "" "pt" Sample.disk
     = (Err "please set CF_ACCOUNT_ID and CF_API_KEY environment variables",
        Sample.disk, []).
Proof.
  split.
  - apply (proj1 (proj2 (missing_credential_is_found_by_the_call
                           Sample.lib (Sample.world ∅ 200 Sample.body_oi)))).
    reflexivity.
  - apply (proj1 (proj2 (proj2 (missing_credential_is_found_by_the_call
                           Sample.lib (Sample.world ∅ 200 Sample.body_hello))))).
    left. reflexivity.
Defined.

(** C8 as the specification words it does not hold: with no credential in
    the environment [main] of either file starts and serves, and the
    missing key is first met when a voice message is transcribed. *)
Lemma process_starts_without_credentials :
  Getenv (Sample.world ∅ 200 Sample.body_oi) "GROQ_API_KEY" = ""
  /\ Getenv (Sample.world ∅ 200 Sample.body_oi) "CF_ACCOUNT_ID" = ""
  /\ Getenv (Sample.world ∅ 200 Sample.body_oi) "CF_API_KEY" = ""
  /\ value (GroqTranscriber.main (Sample.world ∅ 200 Sample.body_oi) Sample.disk)
     = Serving ∅
  /\ value (WhatsappHandler.main (Sample.world ∅ 200 Sample.body_oi) Sample.disk)
     = Serving ∅
  /\ In (ELog "Error during transcription: %v"
              [AErr "GROQ_API_KEY not set in environment"])
        (effects (GroqTranscriber.serve Sample.lib
                    (Sample.world ∅ 200 Sample.body_oi) Sample.evt Sample.disk))
  /\ In (ELog "Error during transcription: %v"
              [AErr "GROQ_API_KEY not set in environment"])
        (effects (WhatsappHandler.serve Sample.lib
                    (Sample.world ∅ 200 Sample.body_oi) Sample.evt Sample.disk)).
Proof.
  repeat split; try (vm_compute; reflexivity); vm_compute; tauto.
Qed.

(** *** The requests *)

Lemma groq_form_fields (audioPath fileData prompt language : string) :
  let parts := GroqBackend.form audioPath fileData prompt language in
  (forall fieldname filename content,
      In (FormFile fieldname filename content) parts <->
      fieldname = "file" /\ filename = Base audioPath /\ content = fileData)
  /\ (forall v, In (FormField "model" v) parts <-> v = "whisper-large-v3")
  /\ (forall v, In (FormField "response_format" v) parts <-> v = "json")
  /\ (forall v, In (FormField "temperature" v) parts <-> v = "0.0")
  /\ (forall v, In (FormField "prompt" v) parts <-> v = prompt /\ prompt <> "")
  /\ (forall v, In (FormField "language" v) parts <-> v = language /\ language <> "").
Proof.
  unfold GroqBackend.form.
  destruct (decide (prompt = "")) as [Hp | Hp], (decide (language = "")) as [Hl | Hl];
    cbn [app In]; repeat apply conj; intros; split;
    try (intros [H | H]; [try discriminate H; injection H as <-; tauto |]; revert H);
    intuition (try discriminate; try congruence);
    repeat match goal with
           | H : FormFile _ _ _ = FormFile _ _ _ |- _ => injection H as ? ? ?; subst
           | H : FormField _ _ = FormField _ _ |- _ => injection H as ? ?; subst
           end;
    try reflexivity; try congruence; try discriminate; subst; auto 10.
Qed.

(** C9.  Every request that [TranscribeAudioGroq] makes has a multipart
    body with one file part, named [file], that carries the bytes of the
    audio file under the base name of its path; the fields [model],
    [response_format] and [temperature] with the values "whisper-large-v3",
    "json" and "0.0"; a field [prompt], with the prompt, exactly when the
    prompt is not empty; and a field [language], with the language, exactly
    when the language is not empty.  With the key set and the file readable
    the call makes exactly one such request. *)
Theorem groq_request_carries_the_form
        (lib : GoLib) (w : World) (audioPath prompt language : string) (fs : FS) :
  (forall timeout req,
      In (EHttpDo timeout req)
         (effects (GroqBackend.TranscribeAudioGroq lib w audioPath prompt language fs)) ->
      exists fileData parts,
        fs !! audioPath = Some fileData
        /\ ReqBody req = Multipart parts
        /\ parts = GroqBackend.form audioPath fileData prompt language
        /\ (forall fieldname filename content,
               In (FormFile fieldname filename content) parts <->
               fieldname = "file" /\ filename = Base audioPath /\ content = fileData)
        /\ (forall v, In (FormField "model" v) parts <-> v = "whisper-large-v3")
        /\ (forall v, In (FormField "response_format" v) parts <-> v = "json")
        /\ (forall v, In (FormField "temperature" v) parts <-> v = "0.0")
        /\ (forall v, In (FormField "prompt" v) parts <-> v = prompt /\ prompt <> "")
        /\ (forall v, In (FormField "language" v) parts <->
                      v = language /\ language <> ""))
  /\ (Getenv w "GROQ_API_KEY" <> "" ->
      NewRequest_err lib GroqBackend.Endpoint = None ->
      forall fileData,
        fs !! audioPath = Some fileData ->
        effects (GroqBackend.TranscribeAudioGroq lib w audioPath prompt language fs)
        = [EHttpDo 60 (GroqBackend.request w audioPath fileData prompt language)]).
Proof.
  split.
  - intros timeout req. rewrite groq_run. unfold effects.
    destruct (decide (Getenv w "GROQ_API_KEY" = "")); [intros [] |].
    destruct (fs !! audioPath) as [fileData |]; [| intros []].
    destruct (NewRequest_err lib GroqBackend.Endpoint); [intros [] |].
    cbn [snd In]. intros [Hreq | []]. injection Hreq as <- <-.
    exists fileData, (GroqBackend.form audioPath fileData prompt language).
    split; [reflexivity |]. split; [reflexivity |]. split; [reflexivity |].
    apply groq_form_fields.
  - intros Hkey Hnew fileData Hfile. rewrite groq_run, Hfile, Hnew.
    destruct (decide (Getenv w "GROQ_API_KEY" = "")); [contradiction | reflexivity].
Qed.

Lemma groq_request_witness :
  effects (GroqBackend.TranscribeAudioGroq Sample.lib
             (Sample.world Sample.groqEnv 200 Sample.body_oi)
             "recordings/voice.ogg" "" "pt" {[ "recordings/voice.ogg" := "opus" ]})
  = [EHttpDo 60
       {| Method := "POST";
          ReqURL := "https://api.groq.com/v1/audio/transcriptions";
          Header := [("Authorization", "Bearer gsk_live");
                     ("Content-Type", "multipart/form-data; boundary=b0undary")];
          ReqBody := Multipart [FormFile "file" "voice.ogg" "opus";
                                FormField "model" "whisper-large-v3";
                                FormField "language" "pt";
                                FormField "response_format" "json";
                                FormField "temperature" "0.0"] |}].
Proof.
  apply (proj2 (groq_request_carries_the_form
                  Sample.lib (Sample.world Sample.groqEnv 200 Sample.body_oi)
                  "recordings/voice.ogg" "" "pt" {[ "recordings/voice.ogg" := "opus" ]})
           ltac:(discriminate) eq_refl "opus" eq_refl).
Defined.

(** C10.  The [language] of the payload that [CFTranscriber.Transcribe]
    posts is the argument of the call, and "en" when that argument is
    empty; the [Language] of the transcriber does not enter the request:
    with another one the call does the same. *)
Theorem cloudflare_payload_language_is_the_argument
        (lib : GoLib) (w : World) (cf : CFTranscriber) (audioPath : string) (fs : FS) :
  (forall timeout req,
      In (EHttpDo timeout req)
         (effects (CloudflareBackend.Transcribe lib w cf audioPath "" fs)) ->
      exists payload,
        ReqBody req = JSONPayload payload
        /\ payload !! "language" = Some (JString "en"))
  /\ (forall language timeout req,
         In (EHttpDo timeout req)
            (effects (CloudflareBackend.Transcribe lib w cf audioPath language fs)) ->
         exists payload,
           ReqBody req = JSONPayload payload
           /\ payload !! "language"
              = Some (JString (if decide (language = "") then "en" else language))
           /\ payload !! "model" = Some (JString (Model cf))
           /\ payload !! "vad_filter" = Some (JString "false")
           /\ (forall content, fs !! audioPath = Some content ->
                               payload !! "audio" = Some (JString (base64 content)))
           /\ dom payload = {[ "model"; "audio"; "language"; "vad_filter" ]})
  /\ (forall language configured,
         CloudflareBackend.Transcribe lib w (withLanguage cf configured)
                                      audioPath language fs
         = CloudflareBackend.Transcribe lib w cf audioPath language fs)
  /\ (forall content,
         fs !! audioPath = Some content ->
         NewRequest_err lib (BaseURL cf) = None ->
         effects (CloudflareBackend.Transcribe lib w cf audioPath "" fs)
         = [EHttpDo 30 (CloudflareBackend.request cf (base64 content) "")]).
Proof.
  assert (Hany : forall language timeout req,
         In (EHttpDo timeout req)
            (effects (CloudflareBackend.Transcribe lib w cf audioPath language fs)) ->
         exists payload,
           ReqBody req = JSONPayload payload
           /\ payload !! "language"
              = Some (JString (if decide (language = "") then "en" else language))
           /\ payload !! "model" = Some (JString (Model cf))
           /\ payload !! "vad_filter" = Some (JString "false")
           /\ (forall content, fs !! audioPath = Some content ->
                               payload !! "audio" = Some (JString (base64 content)))
           /\ dom payload = {[ "model"; "audio"; "language"; "vad_filter" ]}).
  { intros language timeout req. rewrite cf_transcribe_run. unfold effects.
    destruct (fs !! audioPath) as [content |]; [| intros []].
    destruct (NewRequest_err lib (BaseURL cf)); [intros [] |].
    cbn [snd In]. intros [Hreq | []]. injection Hreq as <- <-.
    eexists. split; [reflexivity |].
    unfold CloudflareBackend.payloadOf.
    split; [rewrite lookup_insert_ne by discriminate; apply lookup_insert_eq |].
    split; [do 3 (rewrite lookup_insert_ne by discriminate); apply lookup_insert_eq |].
    split; [apply lookup_insert_eq |].
    split.
    - intros c [= <-]. do 2 (rewrite lookup_insert_ne by discriminate).
      apply lookup_insert_eq.
    - rewrite !dom_insert_L, dom_empty_L. set_solver. }
  repeat apply conj.
  - intros timeout req Hin. destruct (Hany "" timeout req Hin) as (payload & Hb & Hl & _).
    exists payload. split; assumption.
  - exact Hany.
  - intros language configured. rewrite !cf_transcribe_run. reflexivity.
  - intros content Hfile Hnew. rewrite cf_transcribe_run, Hfile, Hnew. reflexivity.
Qed.

Lemma cloudflare_payload_witness :
  effects (CloudflareBackend.Transcribe Sample.lib
             (Sample.world Sample.cfEnv 200 Sample.body_hello)
             (CloudflareBackend.NewCFTranscriber "acc42" "tok" "" "pt")
             "voice.ogg" "" Sample.disk)
  = [EHttpDo 30
       {| Method := "POST";
          ReqURL := "https://api.cloudflare.com/client/v4/accounts/acc42/ai/run/@cf/openai/whisper-large-v3-turbo";
          Header := [("Authorization", "Bearer tok");
                     ("Content-Type", "application/json")];
          ReqBody := JSONPayload
                       (<["vad_filter" := JString "false"]>
                          (<["language" := JString "en"]>
                             (<["audio" := JString "b3B1cw=="]>
                                (<["model" :=
                                     JString "@cf/openai/whisper-large-v3-turbo"]>
                                   ∅)))) |}].
Proof.
  apply (proj2 (proj2 (proj2 (cloudflare_payload_language_is_the_argument
                  Sample.lib (Sample.world Sample.cfEnv 200 Sample.body_hello)
                  (CloudflareBackend.NewCFTranscriber "acc42" "tok" "" "pt")
                  "voice.ogg" Sample.disk))) "opus" eq_refl eq_refl).
Defined.

(** * Further properties *)

(** ** Strings *)

Lemma trimLeftFuel_fixed (fuel : nat) (s : string) :
  spaceWidth s = 0 -> trimLeftFuel fuel s = s.
Proof. intros H. destruct fuel; [reflexivity |]. cbn [trimLeftFuel]. rewrite H. reflexivity. Qed.

Lemma trimRightFuel_fixed (fuel : nat) (r : string) :
  spaceWidthRev r = 0 -> trimRightFuel fuel r = r.
Proof. intros H. destruct fuel; [reflexivity |]. cbn [trimRightFuel]. rewrite H. reflexivity. Qed.

Lemma TrimSpace_fixed (s : string) :
  spaceWidth s = 0 -> spaceWidthRev (String.rev s) = 0 -> TrimSpace s = s.
Proof.
  intros Hl Hr. unfold TrimSpace, TrimRight, TrimLeft.
  rewrite (trimLeftFuel_fixed _ s Hl), (trimRightFuel_fixed _ _ Hr).
  apply rev_involutive.
Qed.

(** X7.  Trimming what is already trimmed changes nothing, and a string is
    left as it is exactly when it has no white space at either end. *)
Theorem TrimSpace_idempotent (s : string) :
  TrimSpace (TrimSpace s) = TrimSpace s
  /\ (TrimSpace s = s <-> spaceWidth s = 0 /\ spaceWidthRev (String.rev s) = 0).
Proof.
  destruct (TrimSpace_no_surrounding_space s) as [Hl Hr].
  split; [apply TrimSpace_fixed; assumption |].
  split.
  - intros <-. split; assumption.
  - intros [H1 H2]. apply TrimSpace_fixed; assumption.
Qed.

Lemma SplitLines_not_nil (s : string) : SplitLines s <> [].
Proof.
  induction s as [| c s IH]; [discriminate |].
  cbn [SplitLines]. destruct (code c =? 10)%N; [discriminate |].
  destruct (SplitLines s); [contradiction | discriminate].
Qed.

Lemma concat_cons_cons (sep x y : string) (l : list string) :
  String.concat sep (x :: y :: l) = x +:+ sep +:+ String.concat sep (y :: l).
Proof. reflexivity. Qed.

Lemma code_LF (c : ascii) : (code c =? 10)%N = true -> c = "010"%char.
Proof.
  intros H. apply N.eqb_eq in H. unfold code in H.
  rewrite <- (ascii_N_embedding c), H. reflexivity.
Qed.

Lemma SplitLines_joins_back (s : string) :
  String.concat LF (SplitLines s) = s
  /\ (forall piece c, In piece (SplitLines s) ->
                      In c (list_ascii_of_string piece) -> c <> "010"%char)
  /\ length (SplitLines s)
     = S (length (List.filter (fun c => (code c =? 10)%N) (list_ascii_of_string s))).
Proof.
  induction s as [| c s (IHj & IHp & IHn)].
  - repeat split. intros piece c [<- | []] [].
  - cbn [SplitLines]. destruct (code c =? 10)%N eqn:Hc.
    + apply code_LF in Hc as ->. repeat split.
      * pose proof (SplitLines_not_nil s) as Hne.
        destruct (SplitLines s) as [| y l] eqn:Hs; [contradiction |].
        rewrite concat_cons_cons, IHj. reflexivity.
      * intros piece c [<- | Hin]; [intros [] | apply IHp; exact Hin].
      * cbn [list_ascii_of_string List.filter length].
        change (code "010" =? 10)%N with true. cbn [length]. rewrite IHn. reflexivity.
    + pose proof (SplitLines_not_nil s) as Hne.
      destruct (SplitLines s) as [| y l] eqn:Hs; [contradiction |].
      repeat split.
      * destruct l as [| z l].
        -- cbn in IHj |- *. rewrite IHj. reflexivity.
        -- rewrite concat_cons_cons in IHj |- *. rewrite append_cons, IHj. reflexivity.
      * intros piece c' [<- | Hin].
        -- cbn [list_ascii_of_string In]. intros [<- | Hin'].
           ++ intros ->. discriminate Hc.
           ++ apply (IHp y); [left; reflexivity | exact Hin'].
        -- apply IHp. right. exact Hin.
      * cbn [list_ascii_of_string List.filter]. rewrite Hc. exact IHn.
Qed.

Lemma SplitLines_single (a : string) :
  (forall c, In c (list_ascii_of_string a) -> c <> "010"%char) ->
  SplitLines a = [a].
Proof.
  induction a as [| x a IH]; intros H; [reflexivity |].
  cbn [SplitLines].
  destruct (code x =? 10)%N eqn:Hx.
  - exfalso. apply (H x); [left; reflexivity | apply code_LF, Hx].
  - rewrite IH; [reflexivity |]. intros c Hc. apply H. right. exact Hc.
Qed.

Lemma SplitLines_append (a rest : string) :
  (forall c, In c (list_ascii_of_string a) -> c <> "010"%char) ->
  SplitLines (a +:+ LF +:+ rest) = a :: SplitLines rest.
Proof.
  induction a as [| x a IH]; intros H; [reflexivity |].
  rewrite append_cons. cbn [SplitLines].
  destruct (code x =? 10)%N eqn:Hx.
  - exfalso. apply (H x); [left; reflexivity | apply code_LF, Hx].
  - rewrite IH; [reflexivity |]. intros c Hc. apply H. right. exact Hc.
Qed.

Lemma SplitLines_concat (lines : list string) :
  lines <> [] ->
  (forall line c, In line lines -> In c (list_ascii_of_string line) -> c <> "010"%char) ->
  SplitLines (String.concat LF lines) = lines.
Proof.
  induction lines as [| a lines IH]; [contradiction |]. intros _ H.
  destruct lines as [| b lines].
  - apply SplitLines_single. intros c Hc. apply (H a c); [left; reflexivity | exact Hc].
  - rewrite concat_cons_cons, SplitLines_append, IH; [reflexivity | discriminate | |].
    + intros line c Hin. apply H. right. exact Hin.
    + intros c Hc. apply (H a c); [left; reflexivity | exact Hc].
Qed.

Lemma chars_append (s t : string) :
  list_ascii_of_string (s +:+ t) = list_ascii_of_string s ++ list_ascii_of_string t.
Proof.
  induction s as [| c s IH]; [reflexivity |].
  rewrite append_cons. cbn [list_ascii_of_string]. rewrite IH. reflexivity.
Qed.

Lemma chars_rev (s : string) (c : ascii) :
  In c (list_ascii_of_string (String.rev s)) <-> In c (list_ascii_of_string s).
Proof.
  induction s as [| x s IH]; [reflexivity |].
  rewrite rev_cons, chars_append. cbn [list_ascii_of_string].
  rewrite in_app_iff, IH. cbn [In]. tauto.
Qed.

Lemma untilSlash_no_slash (r : string) (c : ascii) :
  In c (list_ascii_of_string (untilSlash r)) -> isSlash c = false.
Proof.
  induction r as [| x r IH]; [intros [] |].
  cbn [untilSlash]. destruct (isSlash x) eqn:Hx; [intros [] |].
  cbn [list_ascii_of_string In]. intros [<- | H]; [exact Hx | apply IH, H].
Qed.

Lemma untilSlash_fixed (r : string) :
  (forall c, In c (list_ascii_of_string r) -> isSlash c = false) -> untilSlash r = r.
Proof.
  induction r as [| x r IH]; [reflexivity |]. intros H.
  cbn [untilSlash]. rewrite (H x) by (left; reflexivity).
  rewrite IH; [reflexivity |]. intros c Hc. apply H. right. exact Hc.
Qed.

Lemma stripSlashes_fixed (r : string) :
  (forall c, In c (list_ascii_of_string r) -> isSlash c = false) -> stripSlashes r = r.
Proof.
  destruct r as [| x r]; [reflexivity |]. intros H.
  cbn [stripSlashes]. rewrite (H x) by (left; reflexivity). reflexivity.
Qed.

Lemma Base_is_a_file_name (path : string) :
  Base path <> ""
  /\ (Base path = "/"
      \/ forall c, In c (list_ascii_of_string (Base path)) -> c <> "/"%char)
  /\ Base (Base path) = Base path
  /\ (path = "" -> Base path = ".").
Proof.
  assert (Hslash : forall c, isSlash c = false -> c <> "/"%char).
  { intros c H ->. discriminate H. }
  assert (Hshape : Base path = "." \/ Base path = "/"
                   \/ (Base path <> "" /\
                       forall c, In c (list_ascii_of_string (Base path)) ->
                                 isSlash c = false)).
  { unfold Base. destruct (decide (path = "")); [left; reflexivity |].
    destruct (decide (String.rev (untilSlash (stripSlashes (String.rev path))) = ""))
      as [He | He]; [right; left; reflexivity |].
    right; right. split; [exact He |].
    intros c Hc. apply (proj1 (chars_rev _ _)) in Hc.
    apply untilSlash_no_slash in Hc. exact Hc. }
  split; [| split; [| split]].
  - destruct Hshape as [-> | [-> | [H _]]]; [discriminate | discriminate | exact H].
  - destruct Hshape as [-> | [-> | [_ H]]].
    + right. intros c [<- | []]. discriminate.
    + left. reflexivity.
    + right. intros c Hc. apply Hslash, H, Hc.
  - destruct Hshape as [-> | [-> | [Hne H]]]; [reflexivity | reflexivity |].
    set (b := Base path) in *. unfold Base.
    destruct (decide (b = "")); [contradiction |].
    assert (Hr : forall c, In c (list_ascii_of_string (String.rev b)) -> isSlash c = false).
    { intros c Hc. apply H. apply (proj1 (chars_rev _ _)). exact Hc. }
    rewrite (stripSlashes_fixed _ Hr), (untilSlash_fixed _ Hr), rev_involutive.
    destruct (decide (b = "")); [contradiction | reflexivity].
  - intros ->. reflexivity.
Qed.

Lemma untilSlash_append (a b : string) :
  (forall c, In c (list_ascii_of_string a) -> isSlash c = false) ->
  untilSlash (a +:+ "/" +:+ b) = a.
Proof.
  induction a as [| x a IH]; intros H; [reflexivity |].
  rewrite append_cons. cbn [untilSlash]. rewrite (H x) by (left; reflexivity).
  rewrite IH; [reflexivity |]. intros c Hc. apply H. right. exact Hc.
Qed.

Lemma Base_drops_directory (dir file : string) :
  file <> "" ->
  (forall c, In c (list_ascii_of_string file) -> c <> "/"%char) ->
  Base (dir +:+ "/" +:+ file) = file.
Proof.
  intros Hne Hfile.
  assert (Hno : forall c, In c (list_ascii_of_string (String.rev file)) -> isSlash c = false).
  { intros c Hc. apply (proj1 (chars_rev _ _)) in Hc. specialize (Hfile c Hc).
    unfold isSlash, code. apply N.eqb_neq. intros Heq. apply Hfile.
    rewrite <- (ascii_N_embedding c), Heq. reflexivity. }
  unfold Base.
  destruct (decide (dir +:+ "/" +:+ file = "")) as [He | _].
  { destruct dir; discriminate He. }
  rewrite !rev_append. change (String.rev "/") with "/". rewrite append_assoc.
  assert (Hs : stripSlashes (String.rev file +:+ "/" +:+ String.rev dir)
               = String.rev file +:+ "/" +:+ String.rev dir).
  { destruct (String.rev file) as [| x r] eqn:Hr.
    - exfalso. apply Hne. rewrite <- (rev_involutive file), Hr. reflexivity.
    - rewrite append_cons. cbn [stripSlashes].
      rewrite (Hno x) by (left; reflexivity). reflexivity. }
  rewrite Hs, (untilSlash_append _ _ Hno), rev_involutive.
  destruct (decide (file = "")); [contradiction | reflexivity].
Qed.

Lemma length_append (a b : string) :
  String.length (a +:+ b) = String.length a + String.length b.
Proof.
  induction a as [| c a IH]; [reflexivity |].
  rewrite append_cons. cbn [String.length]. rewrite IH. reflexivity.
Qed.

Lemma base64_length_below (n : nat) (s : string) :
  String.length s < n ->
  String.length (base64 s) = 4 * ((String.length s + 2) / 3).
Proof.
  revert s. induction n as [| n IH]; intros s Hlen; [lia |].
  destruct s as [| c0 [| c1 [| c2 s]]]; try reflexivity.
  cbn [base64 String.length]. rewrite IH by (cbn [String.length] in Hlen; lia).
  replace (S (S (S (String.length s))) + 2) with (String.length s + 2 + 1 * 3) by lia.
  rewrite Nat.div_add by lia. lia.
Qed.

Lemma base64_length (s : string) :
  String.length (base64 s) = 4 * ((String.length s + 2) / 3)
  /\ (base64 s = "" <-> s = "").
Proof.
  split; [apply (base64_length_below (S (String.length s))); lia |].
  split; [| intros ->; reflexivity].
  destruct s as [| c0 [| c1 [| c2 s]]]; [reflexivity | discriminate ..].
Qed.

Lemma b64digit_in_alphabet (n : N) : isBase64Char (b64digit n) = true.
Proof.
  unfold b64digit, isBase64Char, code.
  destruct (n <? 26)%N eqn:H1; [apply N.ltb_lt in H1 |].
  { rewrite N_ascii_embedding by lia.
    replace (65 <=? 65 + n)%N with true by (symmetry; apply N.leb_le; lia).
    replace (65 + n <=? 90)%N with true by (symmetry; apply N.leb_le; lia).
    reflexivity. }
  apply N.ltb_ge in H1.
  destruct (n <? 52)%N eqn:H2; [apply N.ltb_lt in H2 |].
  { rewrite N_ascii_embedding by lia.
    replace (97 <=? 97 + (n - 26))%N with true by (symmetry; apply N.leb_le; lia).
    replace (97 + (n - 26) <=? 122)%N with true by (symmetry; apply N.leb_le; lia).
    rewrite orb_true_r. reflexivity. }
  apply N.ltb_ge in H2.
  destruct (n <? 62)%N eqn:H3; [apply N.ltb_lt in H3 |].
  { rewrite N_ascii_embedding by lia.
    replace (48 <=? 48 + (n - 52))%N with true by (symmetry; apply N.leb_le; lia).
    replace (48 + (n - 52) <=? 57)%N with true by (symmetry; apply N.leb_le; lia).
    rewrite !orb_true_r. reflexivity. }
  destruct (n =? 62)%N; reflexivity.
Qed.

Lemma base64_alphabet_below (n : nat) (s : string) :
  String.length s < n ->
  Forall (fun c => isBase64Char c = true) (list_ascii_of_string (base64 s)).
Proof.
  revert s. induction n as [| n IH]; intros s Hlen; [lia |].
  destruct s as [| c0 [| c1 [| c2 s]]]; cbn [base64 list_ascii_of_string].
  - constructor.
  - repeat (constructor; [first [apply b64digit_in_alphabet | reflexivity] |]).
    constructor.
  - repeat (constructor; [first [apply b64digit_in_alphabet | reflexivity] |]).
    constructor.
  - repeat (constructor; [apply b64digit_in_alphabet |]).
    apply IH. cbn [String.length] in Hlen. lia.
Qed.

Lemma dropBytes_chars (n : nat) (s : string) (c : ascii) :
  In c (list_ascii_of_string (dropBytes n s)) -> In c (list_ascii_of_string s).
Proof.
  destruct (dropBytes_suffix n s) as [p Hp]. intros H.
  rewrite Hp, chars_append. apply in_or_app. right. exact H.
Qed.

Lemma trimLeftFuel_chars (fuel : nat) (s : string) (c : ascii) :
  In c (list_ascii_of_string (trimLeftFuel fuel s)) -> In c (list_ascii_of_string s).
Proof.
  revert s. induction fuel as [| fuel IH]; intros s; [exact (fun H => H) |].
  cbn [trimLeftFuel]. destruct (spaceWidth s) as [| k]; [exact (fun H => H) |].
  intros H. apply IH in H. apply dropBytes_chars in H. exact H.
Qed.

Lemma trimRightFuel_chars (fuel : nat) (s : string) (c : ascii) :
  In c (list_ascii_of_string (trimRightFuel fuel s)) -> In c (list_ascii_of_string s).
Proof.
  revert s. induction fuel as [| fuel IH]; intros s; [exact (fun H => H) |].
  cbn [trimRightFuel]. destruct (spaceWidthRev s) as [| k]; [exact (fun H => H) |].
  intros H. apply IH in H. apply dropBytes_chars in H. exact H.
Qed.

(** [TrimSpace] only removes bytes. *)
Lemma TrimSpace_chars (s : string) (c : ascii) :
  In c (list_ascii_of_string (TrimSpace s)) -> In c (list_ascii_of_string s).
Proof.
  unfold TrimSpace, TrimRight, TrimLeft. intros H.
  apply (proj1 (chars_rev _ _)) in H. apply trimRightFuel_chars in H.
  apply (proj1 (chars_rev _ _)) in H. apply trimLeftFuel_chars in H. exact H.
Qed.

(** X6.  Joining the pieces of [SplitLines] with line feeds gives the text
    back, no piece holds a line feed, and there is one piece more than line
    feeds; splitting the join of pieces without line feeds gives the pieces
    back. *)
Theorem SplitLines_round_trip (s : string) :
  String.concat LF (SplitLines s) = s
  /\ (forall piece c, In piece (SplitLines s) ->
                      In c (list_ascii_of_string piece) -> c <> "010"%char)
  /\ length (SplitLines s)
     = S (length (List.filter (fun c => (code c =? 10)%N) (list_ascii_of_string s)))
  /\ (forall lines,
         lines <> [] ->
         (forall line c, In line lines -> In c (list_ascii_of_string line) ->
                         c <> "010"%char) ->
         SplitLines (String.concat LF lines) = lines).
Proof.
  destruct (SplitLines_joins_back s) as (Hj & Hp & Hn).
  split; [exact Hj |]. split; [exact Hp |]. split; [exact Hn |].
  apply SplitLines_concat.
Qed.

(** ** The exclusion list *)

Lemma loaded_key_shape (filePath : string) (fs : FS) (key : string) (b : bool) :
  value (loadExcludedNumbers filePath fs) !! key = Some b ->
  b = true /\ key <> ""
  /\ exists content line,
      fs !! filePath = Some content /\ In line (SplitLines content)
      /\ key = TrimSpace line.
Proof.
  rewrite loadExcludedNumbers_value.
  destruct (fs !! filePath) as [content |] eqn:Hf;
    [| rewrite lookup_empty; discriminate].
  intros Hk.
  assert (Hb : b = true).
  { apply (foldl_addLine_only_true (SplitLines content) ∅) with (k := key);
      [| exact Hk].
    intros k b'. rewrite lookup_empty. discriminate. }
  subst b. apply foldl_addLine_lookup in Hk.
  destruct Hk as [Hk | (line & Hin & Ht & Hne)];
    [rewrite lookup_empty in Hk; discriminate |].
  split; [reflexivity |]. split; [congruence |].
  exists content, line. auto.
Qed.

(** X1.  Every entry of the loaded map has the value [true] and a key that is
    not empty, has no white space at either end, holds no line feed, and is
    the trimmed text of a line of the file. *)
Theorem excluded_keys_are_trimmed_entries (filePath : string) (fs : FS) (key : string)
        (b : bool) :
  value (loadExcludedNumbers filePath fs) !! key = Some b ->
  b = true /\ key <> "" /\ TrimSpace key = key
  /\ spaceWidth key = 0 /\ spaceWidthRev (String.rev key) = 0
  /\ (forall c, In c (list_ascii_of_string key) -> c <> "010"%char)
  /\ exists content line,
      fs !! filePath = Some content /\ In line (SplitLines content)
      /\ key = TrimSpace line.
Proof.
  intros Hk. destruct (loaded_key_shape _ _ _ _ Hk) as (Hb & Hne & content & line & Hf & Hin & ->).
  destruct (TrimSpace_no_surrounding_space line) as [Hl Hr].
  split; [exact Hb |]. split; [exact Hne |].
  split; [apply TrimSpace_fixed; assumption |].
  split; [exact Hl |]. split; [exact Hr |]. split.
  - intros c Hc. apply TrimSpace_chars in Hc.
    apply (proj1 (proj2 (SplitLines_joins_back content)) line c Hin Hc).
  - exists content, line. auto.
Qed.

Lemma excluded_keys_witness :
  TrimSpace "5522" = "5522" /\ "5522" <> "".
Proof.
  assert (Hk : value (loadExcludedNumbers "exclude.txt"
                        {[ "exclude.txt" := " 5522 " +:+ LF ]}) !! "5522" = Some true)
    by (vm_compute; reflexivity).
  destruct (excluded_keys_are_trimmed_entries
              "exclude.txt" {[ "exclude.txt" := " 5522 " +:+ LF ]} "5522" true Hk)
    as (_ & Hne & Ht & _).
  split; [exact Ht | exact Hne].
Defined.

(** X2.  The sender is looked up as it comes: the empty sender, and a sender
    with white space at an end, are never excluded, whatever the file
    lists. *)
Theorem unnormalised_sender_is_never_excluded (filePath : string) (fs : FS)
        (sender : string) :
  sender = "" \/ TrimSpace sender <> sender ->
  IsExcluded (value (loadExcludedNumbers filePath fs)) sender = false.
Proof.
  intros Hs. unfold IsExcluded.
  destruct (value (loadExcludedNumbers filePath fs) !! sender) as [b |] eqn:Hk;
    [| reflexivity].
  exfalso.
  destruct (loaded_key_shape _ _ _ _ Hk) as (_ & Hne & content & line & _ & _ & Heq).
  destruct Hs as [Hs | Hs]; [contradiction |].
  apply Hs. rewrite Heq.
  destruct (TrimSpace_no_surrounding_space line).
  apply TrimSpace_fixed; assumption.
Qed.

Lemma unnormalised_sender_witness :
  IsExcluded (value (loadExcludedNumbers "exclude.txt"
                       {[ "exclude.txt" := " 5522 " +:+ LF ]})) " 5522 " = false.
Proof.
  apply unnormalised_sender_is_never_excluded.
  right. vm_compute. discriminate.
Defined.

(** X3.  Two files whose lines have the same trimmed, non-empty texts load
    the same map: the order of the lines, their repetition, blank lines and
    the white space around an entry make no difference. *)
Theorem exclusion_set_ignores_order_and_repeats (path1 path2 : string) (fs1 fs2 : FS)
        (content1 content2 : string) :
  fs1 !! path1 = Some content1 ->
  fs2 !! path2 = Some content2 ->
  (forall entry, entry <> "" ->
                 (exists l1, In l1 (SplitLines content1) /\ TrimSpace l1 = entry)
                 <-> (exists l2, In l2 (SplitLines content2) /\ TrimSpace l2 = entry)) ->
  value (loadExcludedNumbers path1 fs1) = value (loadExcludedNumbers path2 fs2).
Proof.
  intros H1 H2 Hsame.
  assert (Hhalf : forall p q (f g : FS) c d,
             f !! p = Some c -> g !! q = Some d ->
             (forall entry, entry <> "" ->
                 (exists l1, In l1 (SplitLines c) /\ TrimSpace l1 = entry)
                 -> (exists l2, In l2 (SplitLines d) /\ TrimSpace l2 = entry)) ->
             forall k b, value (loadExcludedNumbers p f) !! k = Some b ->
                         value (loadExcludedNumbers q g) !! k = Some b).
  { intros p q f g c d Hf Hg Hsub k b Hk.
    destruct (loaded_key_shape _ _ _ _ Hk) as (-> & Hne & c' & line & Hc & Hin & Heq).
    rewrite Hf in Hc. injection Hc as <-.
    destruct (Hsub k Hne) as (l2 & Hin2 & Ht2); [exists line; auto |].
    rewrite loadExcludedNumbers_value, Hg. apply foldl_addLine_lookup.
    right. exists l2. split; [exact Hin2 |]. split; [exact Ht2 | congruence]. }
  apply map_eq. intros k.
  destruct (value (loadExcludedNumbers path1 fs1) !! k) as [b |] eqn:Hk1.
  - symmetry. apply (Hhalf path1 path2 fs1 fs2 content1 content2 H1 H2); [| exact Hk1].
    intros entry Hne. apply (proj1 (Hsame entry Hne)).
  - destruct (value (loadExcludedNumbers path2 fs2) !! k) as [b |] eqn:Hk2;
      [| reflexivity].
    apply (Hhalf path2 path1 fs2 fs1 content2 content1 H2 H1) in Hk2; [congruence |].
    intros entry Hne. apply (proj2 (Hsame entry Hne)).
Qed.

Lemma exclusion_set_order_witness :
  value (loadExcludedNumbers "a.txt" {[ "a.txt" := "5511" +:+ LF +:+ "5522" ]})
  = value (loadExcludedNumbers "b.txt"
             {[ "b.txt" := " 5522" +:+ LF +:+ LF +:+ "5511 " +:+ LF +:+ "5522" ]}).
Proof.
  apply (exclusion_set_ignores_order_and_repeats
           "a.txt" "b.txt" _ _ ("5511" +:+ LF +:+ "5522")
           (" 5522" +:+ LF +:+ LF +:+ "5511 " +:+ LF +:+ "5522"));
    [apply lookup_singleton_eq | apply lookup_singleton_eq |].
  intros entry Hne. split.
  - intros (l & Hin & Ht). vm_compute in Hin.
    destruct Hin as [<- | [<- | []]]; vm_compute in Ht; subst entry.
    + exists "5511 ". split; [vm_compute; tauto | reflexivity].
    + exists "5522". split; [vm_compute; tauto | reflexivity].
  - intros (l & Hin & Ht). vm_compute in Hin.
    destruct Hin as [<- | [<- | [<- | [<- | []]]]]; vm_compute in Ht; subst entry;
      try (exfalso; apply Hne; reflexivity).
    + exists "5522". split; [vm_compute; tauto | reflexivity].
    + exists "5511". split; [vm_compute; tauto | reflexivity].
    + exists "5522". split; [vm_compute; tauto | reflexivity].
Defined.




(** ** Start-up *)



(** ** The handlers *)

(** X9.  An event of an excluded sender in a direct chat is not dispatched:
    nothing is fetched, no backend is called and no reply is sent.  The
    handler of groq_transcriber.go only logs; the one of whatsapp_handler.go
    may still have saved the audio under downloads, and touches no other
    file. *)
Theorem excluded_sender_is_not_transcribed
        (lib : GoLib) (w : World) (EXCLUDED_NUMBERS : gmap string bool)
        (evt : Message) (fs : FS) :
  Info_IsGroup evt = false ->
  IsExcluded EXCLUDED_NUMBERS (Info_Sender_User evt) = true ->
  GroqTranscriber.handleMessage lib w EXCLUDED_NUMBERS evt fs
  = (tt, fs, [ignoredSender (Info_Sender_User evt)])
  /\ quiet (effects (WhatsappHandler.handleMessage lib w EXCLUDED_NUMBERS evt fs))
  /\ (forall path, final (WhatsappHandler.handleMessage lib w EXCLUDED_NUMBERS evt fs)
                     !! path <> fs !! path ->
                   path = filepath_Join lib "downloads" (Info_ID evt +:+ ".ogg")).
Proof.
  intros Hg Hx. split; [| split].
  - unfold GroqTranscriber.handleMessage. rewrite Hg, Hx. reflexivity.
  - unfold_handlers. unfold quiet. run; repeat split; reflexivity.
  - intros path. unfold_handlers. run; try congruence.
    intros Hne.
    destruct (decide (filepath_Join lib "downloads" (Info_ID evt +:+ ".ogg") = path))
      as [<- | Hp]; [reflexivity |].
    rewrite lookup_insert_ne in Hne by exact Hp. congruence.
Qed.

Lemma excluded_sender_witness :
  GroqTranscriber.handleMessage Sample.lib
    (Sample.world Sample.groqEnv 200 Sample.body_oi)
    {[ "5511999990000" := true ]} Sample.evt Sample.disk
  = (tt, Sample.disk, [ignoredSender "5511999990000"]).
Proof.
  apply (excluded_sender_is_not_transcribed
           Sample.lib (Sample.world Sample.groqEnv 200 Sample.body_oi)
           {[ "5511999990000" := true ]} Sample.evt Sample.disk);
    [reflexivity | vm_compute; reflexivity].
Defined.

(** X10.  One event causes at most one fetch, at most one request to the
    backend and at most one reply, and a reply goes to the chat of the
    event; the handler of groq_transcriber.go never downloads through the
    transport and the one of whatsapp_handler.go never makes a plain GET. *)
Theorem one_attempt_per_event
        (lib : GoLib) (w : World) (EXCLUDED_NUMBERS : gmap string bool)
        (evt : Message) (fs : FS) :
  let g := effects (GroqTranscriber.handleMessage lib w EXCLUDED_NUMBERS evt fs) in
  let h := effects (WhatsappHandler.handleMessage lib w EXCLUDED_NUMBERS evt fs) in
  (length (rawGets g) <= 1 /\ length (backendRequests g) <= 1
   /\ length (replies g) <= 1 /\ transportDownloads g = [])
  /\ (length (transportDownloads h) <= 1 /\ length (backendRequests h) <= 1
      /\ length (replies h) <= 1 /\ rawGets h = [])
  /\ (forall reply, In reply (replies g) \/ In reply (replies h) ->
                    fst reply = Info_Chat_ID evt).
Proof.
  cbv zeta. unfold_handlers.
  split; [| split].
  - run; repeat split; cbn; lia.
  - run; repeat split; cbn; lia.
  - intros reply [H | H]; revert H; run; intros H; settle; subst; reflexivity.
Qed.

(** X11.  A reply is sent only for an event of a direct chat whose sender
    is not excluded, and only after the backend answered the request of
    that run with status 200 and a body that decodes; the reply is then the
    template on the trimmed transcript. *)
Theorem reply_only_after_ok_transcript
        (lib : GoLib) (w : World) (EXCLUDED_NUMBERS : gmap string bool)
        (evt : Message) (fs : FS) (reply : string * string) :
  (In reply (replies (effects (GroqTranscriber.handleMessage lib w EXCLUDED_NUMBERS
                                 evt fs))) ->
   exists req resp t,
     In (EHttpDo 60 req)
        (effects (GroqTranscriber.handleMessage lib w EXCLUDED_NUMBERS evt fs))
     /\ http_Do w 60 req = Ok resp
     /\ StatusCode resp = StatusOK
     /\ json_Decode_text lib (Body resp) = Ok t
     /\ reply = (Info_Chat_ID evt, replyText (TrimSpace t))
     /\ Info_IsGroup evt = false
     /\ IsExcluded EXCLUDED_NUMBERS (Info_Sender_User evt) = false)
  /\ (In reply (replies (effects (WhatsappHandler.handleMessage lib w EXCLUDED_NUMBERS
                                    evt fs))) ->
      exists req resp t,
        In (EHttpDo 60 req)
           (effects (WhatsappHandler.handleMessage lib w EXCLUDED_NUMBERS evt fs))
        /\ http_Do w 60 req = Ok resp
        /\ StatusCode resp = StatusOK
        /\ json_Decode_text lib (Body resp) = Ok t
        /\ reply = (Info_Chat_ID evt, replyText (TrimSpace t))
        /\ Info_IsGroup evt = false
        /\ IsExcluded EXCLUDED_NUMBERS (Info_Sender_User evt) = false).
Proof.
  unfold_handlers.
  split; run; intros H; settle; subst;
    do 3 eexists;
    (split; [cbn; tauto |]);
    repeat split; try eassumption; reflexivity.
Qed.

(** X12.  A transcript that is empty or white space only is not held back:
    the reply is sent with nothing between the underscores. *)
Theorem blank_transcript_is_still_answered
        (lib : GoLib) (w : World) (EXCLUDED_NUMBERS : gmap string bool)
        (evt : Message) (fs : FS) (timeout : Z) (req : Request) (resp : Response)
        (t : string) :
  http_Do w timeout req = Ok resp ->
  StatusCode resp = StatusOK ->
  json_Decode_text lib (Body resp) = Ok t ->
  TrimSpace t = "" ->
  (In (EHttpDo timeout req)
      (effects (GroqTranscriber.handleMessage lib w EXCLUDED_NUMBERS evt fs)) ->
   replies (effects (GroqTranscriber.handleMessage lib w EXCLUDED_NUMBERS evt fs))
   = [(Info_Chat_ID evt, "*Transcrição automática:*" +:+ LF +:+ LF +:+ "__")])
  /\ (In (EHttpDo timeout req)
         (effects (WhatsappHandler.handleMessage lib w EXCLUDED_NUMBERS evt fs)) ->
      replies (effects (WhatsappHandler.handleMessage lib w EXCLUDED_NUMBERS evt fs))
      = [(Info_Chat_ID evt, "*Transcrição automática:*" +:+ LF +:+ LF +:+ "__")]).
Proof.
  intros Hdo Hst Hdec Hblank. unfold_handlers.
  split; run; intros Hin; try (exfalso; settle; fail); settle;
    repeat match goal with
           | H1 : ?x = Ok _, H2 : ?x = Ok _ |- _ =>
               rewrite H1 in H2; injection H2 as ?; subst
           end;
    try congruence;
    unfold replyText; rewrite Hblank; reflexivity.
Qed.

Lemma blank_transcript_witness :
  replies (effects (GroqTranscriber.handleMessage Sample.lib
                      (Sample.world Sample.groqEnv 200 blankBody) ∅
                      Sample.evt Sample.disk))
  = [("5511999990000@s.whatsapp.net", "*Transcrição automática:*" +:+ LF +:+ LF +:+ "__")].
Proof.
  apply (proj1 (blank_transcript_is_still_answered
                  Sample.lib (Sample.world Sample.groqEnv 200 blankBody) ∅
                  Sample.evt Sample.disk 60%Z
                  (GroqBackend.request (Sample.world Sample.groqEnv 200 blankBody)
                     "messages/audio-4096-1234567.webm" "ciphertext"
                     WHISPER_PROMPT "pt")
                  {| StatusCode := 200; Body := blankBody |} "   "
                  eq_refl eq_refl eq_refl eq_refl)).
  vm_compute. do 3 right. left. reflexivity.
Defined.

(** X13.  A request that the handler of groq_transcriber.go makes to the
    backend is the one of [TranscribeAudioGroq] on the temporary file: it
    carries the body of the GET of the message's URL, the prompt
    [WHISPER_PROMPT] and the language "pt", under a timeout of 60 seconds,
    and is made only with the key set. *)
Theorem groq_handler_posts_what_it_fetched
        (lib : GoLib) (w : World) (EXCLUDED_NUMBERS : gmap string bool)
        (evt : Message) (fs : FS) (timeout : Z) (req : Request) :
  In (EHttpDo timeout req)
     (effects (GroqTranscriber.handleMessage lib w EXCLUDED_NUMBERS evt fs)) ->
  exists audioMsg resp rnd,
    Info_IsGroup evt = false
    /\ IsExcluded EXCLUDED_NUMBERS (Info_Sender_User evt) = false
    /\ Message_AudioMessage evt = Some audioMsg
    /\ http_Get w (URL audioMsg) = Ok resp
    /\ CreateTemp_rand w MESSAGES_DIR
         ("audio-" +:+ itoa (FileLength audioMsg) +:+ "-") ".webm" = Ok rnd
    /\ Getenv w "GROQ_API_KEY" <> ""
    /\ timeout = 60%Z
    /\ req = GroqBackend.request w
               (MESSAGES_DIR +:+ "/" +:+ ("audio-" +:+ itoa (FileLength audioMsg) +:+ "-")
                             +:+ rnd +:+ ".webm")
               (Body resp) WHISPER_PROMPT "pt".
Proof.
  unfold_handlers.
  run; intros Hin; settle;
    do 3 eexists; repeat split; try eassumption; reflexivity.
Qed.

Lemma groq_handler_posts_witness :
  exists audioMsg resp rnd,
    Info_IsGroup Sample.evt = false
    /\ IsExcluded ∅ (Info_Sender_User Sample.evt) = false
    /\ Message_AudioMessage Sample.evt = Some audioMsg
    /\ http_Get (Sample.world Sample.groqEnv 200 Sample.body_oi) (URL audioMsg) = Ok resp
    /\ CreateTemp_rand (Sample.world Sample.groqEnv 200 Sample.body_oi) MESSAGES_DIR
         ("audio-" +:+ itoa (FileLength audioMsg) +:+ "-") ".webm" = Ok rnd
    /\ Getenv (Sample.world Sample.groqEnv 200 Sample.body_oi) "GROQ_API_KEY" <> ""
    /\ 60%Z = 60%Z
    /\ GroqBackend.request (Sample.world Sample.groqEnv 200 Sample.body_oi)
         "messages/audio-4096-1234567.webm" "ciphertext" WHISPER_PROMPT "pt"
       = GroqBackend.request (Sample.world Sample.groqEnv 200 Sample.body_oi)
           (MESSAGES_DIR +:+ "/" +:+ ("audio-" +:+ itoa (FileLength audioMsg) +:+ "-")
                         +:+ rnd +:+ ".webm")
           (Body resp) WHISPER_PROMPT "pt".
Proof.
  apply (groq_handler_posts_what_it_fetched
           Sample.lib (Sample.world Sample.groqEnv 200 Sample.body_oi) ∅
           Sample.evt Sample.disk 60%Z
           (GroqBackend.request (Sample.world Sample.groqEnv 200 Sample.body_oi)
              "messages/audio-4096-1234567.webm" "ciphertext" WHISPER_PROMPT "pt")).
  vm_compute. do 3 right. left. reflexivity.
Defined.

(** X14.  The handler of groq_transcriber.go changes no file but the
    temporary one it created: a path whose content differs after the run is
    that of the temporary file. *)
Theorem groq_handler_touches_only_its_temp_file
        (lib : GoLib) (w : World) (EXCLUDED_NUMBERS : gmap string bool)
        (evt : Message) (fs : FS) (path : string) :
  final (GroqTranscriber.handleMessage lib w EXCLUDED_NUMBERS evt fs) !! path
  <> fs !! path ->
  exists audioMsg rnd,
    Message_AudioMessage evt = Some audioMsg
    /\ CreateTemp_rand w MESSAGES_DIR
         ("audio-" +:+ itoa (FileLength audioMsg) +:+ "-") ".webm" = Ok rnd
    /\ path = MESSAGES_DIR +:+ "/" +:+ ("audio-" +:+ itoa (FileLength audioMsg) +:+ "-")
                           +:+ rnd +:+ ".webm".
Proof.
  unfold_handlers.
  run; intros Hne; try congruence.
  all: match goal with
    | H : CreateTemp_rand _ _ ?pre _ = Ok ?rnd |- _ =>
        destruct (decide (path = MESSAGES_DIR +:+ "/" +:+ pre +:+ rnd +:+ ".webm"))
          as [-> | Hp]
    end.
  all: try (do 2 eexists; repeat split; try eassumption; reflexivity).
  all: exfalso; apply Hne.
  all: rewrite ?lookup_delete_ne by congruence.
  all: rewrite ?lookup_insert_ne by congruence; reflexivity.
Qed.

Lemma groq_handler_frame_witness :
  exists audioMsg rnd,
    Message_AudioMessage Sample.evt = Some audioMsg
    /\ CreateTemp_rand (Sample.world Sample.groqEnv 500 "boom") MESSAGES_DIR
         ("audio-" +:+ itoa (FileLength audioMsg) +:+ "-") ".webm" = Ok rnd
    /\ "messages/audio-4096-1234567.webm"
       = MESSAGES_DIR +:+ "/" +:+ ("audio-" +:+ itoa (FileLength audioMsg) +:+ "-")
                      +:+ rnd +:+ ".webm".
Proof.
  apply (groq_handler_touches_only_its_temp_file
           Sample.lib (Sample.world Sample.groqEnv 500 "boom") ∅
           Sample.evt Sample.disk "messages/audio-4096-1234567.webm").
  vm_compute. discriminate.
Defined.



(** X16.  [processAudioMessage] returns [nil] exactly when it sent the reply
    and the transport accepted it; in every other case it returns an
    error. *)
Theorem processAudioMessage_returns_nil_iff_delivered
        (lib : GoLib) (w : World) (evt : Message) (fs : FS) :
  (value (GroqTranscriber.processAudioMessage lib w evt fs) = None <->
   exists text,
     replies (effects (GroqTranscriber.processAudioMessage lib w evt fs))
     = [(Info_Chat_ID evt, text)]
     /\ SendMessage w (Info_Chat_ID evt) text = None)
  /\ (value (WhatsappHandler.processAudioMessage lib w evt fs) = None <->
      exists text,
        replies (effects (WhatsappHandler.processAudioMessage lib w evt fs))
        = [(Info_Chat_ID evt, text)]
        /\ SendMessage w (Info_Chat_ID evt) text = None).
Proof.
  unfold_handlers.
  split; run; (split; [intros H; try discriminate H | intros (text & H & Hs)]);
    try discriminate H;
    try (eexists; split; [reflexivity | eassumption]);
    try (injection H as <-; congruence).
Qed.

(** ** The backends *)

(** X17.  [TranscribeAudioGroq] leaves the file system as it is and makes at
    most one request.  It returns a transcript exactly when the key is set,
    the audio file is read, and the backend answers that one request with
    status 200 and a body that decodes to it.  With the key set and no
    audio file it returns "audio file not found" without a request.  A
    request is a POST to the fixed endpoint under a timeout of 60 seconds,
    with the key as bearer token. *)
Theorem groq_transcribe_outcomes
        (lib : GoLib) (w : World) (audioPath prompt language : string) (fs : FS) :
  let run := GroqBackend.TranscribeAudioGroq lib w audioPath prompt language fs in
  final run = fs
  /\ length (effects run) <= 1
  /\ (forall t,
         value run = Ok t <->
         Getenv w "GROQ_API_KEY" <> ""
         /\ NewRequest_err lib GroqBackend.Endpoint = None
         /\ exists fileData resp,
             fs !! audioPath = Some fileData
             /\ http_Do w 60 (GroqBackend.request w audioPath fileData prompt language)
                = Ok resp
             /\ StatusCode resp = StatusOK
             /\ json_Decode_text lib (Body resp) = Ok t)
  /\ (Getenv w "GROQ_API_KEY" <> "" -> fs !! audioPath = None ->
      run = (Err ("audio file not found: open " +:+ audioPath
                  +:+ ": no such file or directory"), fs, []))
  /\ (forall timeout req,
         In (EHttpDo timeout req) (effects run) ->
         timeout = 60%Z /\ Method req = "POST"
         /\ ReqURL req = "https://api.groq.com/v1/audio/transcriptions"
         /\ Header req
            = [("Authorization", "Bearer " +:+ Getenv w "GROQ_API_KEY");
               ("Content-Type", "multipart/form-data; boundary=" +:+ Boundary w)]
         /\ Getenv w "GROQ_API_KEY" <> "").
Proof.
  cbv zeta. rewrite groq_run. unfold GroqBackend.answer, value, final, effects.
  destruct (decide (Getenv w "GROQ_API_KEY" = "")) as [Hk | Hk].
  { cbn. repeat split; try lia; try discriminate; try contradiction.
    intros (H & _). contradiction. }
  destruct (fs !! audioPath) as [fileData |] eqn:Hf.
  2:{ cbn. repeat split; try lia; try discriminate; try contradiction.
      intros (_ & _ & d & r & H & _). discriminate H. }
  destruct (NewRequest_err lib GroqBackend.Endpoint) as [e |] eqn:Hn.
  { cbn. repeat split; try lia; try discriminate; try contradiction.
    intros (_ & H & _). discriminate H. }
  cbn -[String.append]. split; [reflexivity |]. split; [lia |]. split; [| split].
  - intros t. split.
    + destruct (http_Do w 60 _) as [resp | e] eqn:Hd; [| discriminate].
      destruct (StatusCode resp =? StatusOK)%Z eqn:Hs; [| discriminate].
      intros Ht. split; [exact Hk |]. split; [reflexivity |].
      exists fileData, resp. apply Z.eqb_eq in Hs. auto.
    + intros (_ & _ & d & resp & [= <-] & Hd & Hs & Ht).
      rewrite Hd. apply Z.eqb_eq in Hs. rewrite Hs. exact Ht.
  - intros _ H. discriminate H.
  - intros timeout req [[= <- <-] | []]. repeat split. exact Hk.
Qed.

(** X18.  The file part of a request of [TranscribeAudioGroq] is named by
    the last element of the audio path: the name is not empty, holds no
    separator unless the path is made of separators only, and for a path
    [dir/file] it is [file]. *)
Theorem groq_upload_file_name
        (lib : GoLib) (w : World) (audioPath prompt language : string) (fs : FS)
        (timeout : Z) (req : Request) :
  In (EHttpDo timeout req)
     (effects (GroqBackend.TranscribeAudioGroq lib w audioPath prompt language fs)) ->
  exists name content rest,
    ReqBody req = Multipart (FormFile "file" name content :: rest)
    /\ fs !! audioPath = Some content
    /\ name = Base audioPath
    /\ name <> ""
    /\ (name = "/" \/ forall c, In c (list_ascii_of_string name) -> c <> "/"%char)
    /\ (forall dir file,
           audioPath = dir +:+ "/" +:+ file -> file <> "" ->
           (forall c, In c (list_ascii_of_string file) -> c <> "/"%char) ->
           name = file).
Proof.
  rewrite groq_run. unfold effects.
  destruct (decide (Getenv w "GROQ_API_KEY" = "")); [intros [] |].
  destruct (fs !! audioPath) as [content |]; [| intros []].
  destruct (NewRequest_err lib GroqBackend.Endpoint); [intros [] |].
  cbn [snd In]. intros [[= <- <-] | []].
  destruct (Base_is_a_file_name audioPath) as (Hne & Hsl & _).
  eexists (Base audioPath), content, _.
  split; [reflexivity |]. split; [reflexivity |]. split; [reflexivity |].
  split; [exact Hne |]. split; [exact Hsl |].
  intros dir file -> Hf Hc. apply Base_drops_directory; assumption.
Qed.

Lemma groq_upload_file_name_witness :
  exists name content rest,
    ReqBody (GroqBackend.request (Sample.world Sample.groqEnv 200 Sample.body_oi)
               "recordings/voice.ogg" "opus" "" "pt")
    = Multipart (FormFile "file" name content :: rest)
    /\ ({[ "recordings/voice.ogg" := "opus" ]} : FS) !! "recordings/voice.ogg"
       = Some content
    /\ name = Base "recordings/voice.ogg"
    /\ name <> ""
    /\ (name = "/" \/ forall c, In c (list_ascii_of_string name) -> c <> "/"%char)
    /\ (forall dir file,
           "recordings/voice.ogg" = dir +:+ "/" +:+ file -> file <> "" ->
           (forall c, In c (list_ascii_of_string file) -> c <> "/"%char) ->
           name = file).
Proof.
  apply (groq_upload_file_name
           Sample.lib (Sample.world Sample.groqEnv 200 Sample.body_oi)
           "recordings/voice.ogg" "" "pt" {[ "recordings/voice.ogg" := "opus" ]} 60%Z).
  vm_compute. left. reflexivity.
Defined.

(** X19.  [NewCFTranscriber] never leaves the model or the language empty:
    an empty model becomes "@cf/openai/whisper-large-v3-turbo" and an empty
    language "en", others are kept.  The URL is built from the account and
    the model in use, and building a transcriber again from the fields of
    one gives the same transcriber. *)
Theorem NewCFTranscriber_defaults (accountID apiToken model language : string) :
  let cf := CloudflareBackend.NewCFTranscriber accountID apiToken model language in
  Model cf <> "" /\ Language cf <> ""
  /\ (model <> "" -> Model cf = model)
  /\ (language <> "" -> Language cf = language)
  /\ (model = "" -> Model cf = "@cf/openai/whisper-large-v3-turbo")
  /\ (language = "" -> Language cf = "en")
  /\ AccountID cf = accountID /\ APIToken cf = apiToken
  /\ BaseURL cf = "https://api.cloudflare.com/client/v4/accounts/" +:+ accountID
                  +:+ "/ai/run/" +:+ Model cf
  /\ CloudflareBackend.NewCFTranscriber (AccountID cf) (APIToken cf) (Model cf)
                                        (Language cf) = cf.
Proof.
  cbv zeta. unfold CloudflareBackend.NewCFTranscriber. cbn [Model Language AccountID APIToken BaseURL].
  destruct (decide (model = "")) as [Hm | Hm], (decide (language = "")) as [Hl | Hl];
    repeat split; try congruence; try discriminate; try reflexivity.
  all: try (destruct (decide (_ = "")); [discriminate || contradiction | ]).
  all: try (destruct (decide (language = "")); [contradiction |]).
  all: try (destruct (decide (model = "")); [contradiction |]).
  all: try reflexivity.
Qed.

(** X20.  [CFTranscriber.Transcribe] leaves the file system as it is and
    makes at most one request; without the audio file it returns the read
    error and makes none.  It returns a decoded answer exactly when the
    request is accepted, answered with status 200 and the body decodes.  A
    request is a POST to [BaseURL] under a timeout of 30 seconds, with the
    token as bearer token and the JSON content type, and its [audio] field
    is the base64 text of the file. *)
Theorem cloudflare_transcribe_outcomes
        (lib : GoLib) (w : World) (cf : CFTranscriber) (audioPath language : string)
        (fs : FS) :
  let run := CloudflareBackend.Transcribe lib w cf audioPath language fs in
  final run = fs
  /\ length (effects run) <= 1
  /\ (fs !! audioPath = None ->
      run = (Err ("open " +:+ audioPath +:+ ": no such file or directory"), fs, []))
  /\ (forall result,
         value run = Ok result <->
         NewRequest_err lib (BaseURL cf) = None
         /\ exists content resp,
             fs !! audioPath = Some content
             /\ http_Do w 30 (CloudflareBackend.request cf (base64 content) language)
                = Ok resp
             /\ StatusCode resp = StatusOK
             /\ json_Decode_map lib (Body resp) = Ok result)
  /\ (forall timeout req,
         In (EHttpDo timeout req) (effects run) ->
         timeout = 30%Z /\ Method req = "POST" /\ ReqURL req = BaseURL cf
         /\ Header req = [("Authorization", "Bearer " +:+ APIToken cf);
                          ("Content-Type", "application/json")]
         /\ exists content encoded payload,
             fs !! audioPath = Some content
             /\ ReqBody req = JSONPayload payload
             /\ payload !! "audio" = Some (JString encoded)
             /\ encoded = base64 content
             /\ String.length encoded = 4 * ((String.length content + 2) / 3)).
Proof.
  cbv zeta. rewrite cf_transcribe_run.
  unfold CloudflareBackend.answer, value, final, effects.
  destruct (fs !! audioPath) as [content |] eqn:Hf.
  2:{ cbn. repeat split; try lia; try discriminate; try contradiction.
      intros (_ & c & r & H & _). discriminate H. }
  destruct (NewRequest_err lib (BaseURL cf)) as [e |] eqn:Hn.
  { cbn. repeat split; try lia; try discriminate; try contradiction.
    intros (H & _). discriminate H. }
  cbn -[String.append]. split; [reflexivity |]. split; [lia |]. split; [| split].
  - discriminate.
  - intros result. split.
    + destruct (http_Do w 30 _) as [resp | e] eqn:Hd; [| discriminate].
      destruct (StatusCode resp =? StatusOK)%Z eqn:Hs; [| discriminate].
      intros Ht. split; [reflexivity |].
      exists content, resp. apply Z.eqb_eq in Hs. auto.
    + intros (_ & c & resp & [= <-] & Hd & Hs & Ht).
      rewrite Hd. apply Z.eqb_eq in Hs. rewrite Hs. exact Ht.
  - intros timeout req [[= <- <-] | []]. repeat split.
    exists content, (base64 content), 
      (CloudflareBackend.payloadOf cf (base64 content)
         (if decide (language = "") then "en" else language)).
    split; [reflexivity |]. split; [reflexivity |]. split; [| split; [reflexivity |]].
    + unfold CloudflareBackend.payloadOf.
      do 2 (rewrite lookup_insert_ne by discriminate). apply lookup_insert_eq.
    + apply base64_length.
Qed.

(** X21.  A request of [CfTranscribe] is made only with both credentials
    set, and is the only effect of the call.  It goes to the account of
    CF_ACCOUNT_ID and to the model of the call, or the default model when
    that is empty, with CF_API_KEY as bearer token; the payload names the
    same model, the language of the call or "en", and [vad_filter]
    "false". *)
Theorem CfTranscribe_requests
        (lib : GoLib) (w : World) (audioPath model language : string) (fs : FS)
        (timeout : Z) (req : Request) :
  In (EHttpDo timeout req)
     (effects (CloudflareBackend.CfTranscribe lib w audioPath model language fs)) ->
  let used := if decide (model = "") then "@cf/openai/whisper-large-v3-turbo"
              else model in
  Getenv w "CF_ACCOUNT_ID" <> "" /\ Getenv w "CF_API_KEY" <> ""
  /\ effects (CloudflareBackend.CfTranscribe lib w audioPath model language fs)
     = [EHttpDo timeout req]
  /\ final (CloudflareBackend.CfTranscribe lib w audioPath model language fs) = fs
  /\ timeout = 30%Z
  /\ ReqURL req = "https://api.cloudflare.com/client/v4/accounts/"
                  +:+ Getenv w "CF_ACCOUNT_ID" +:+ "/ai/run/" +:+ used
  /\ Header req = [("Authorization", "Bearer " +:+ Getenv w "CF_API_KEY");
                   ("Content-Type", "application/json")]
  /\ exists payload,
      ReqBody req = JSONPayload payload
      /\ payload !! "model" = Some (JString used)
      /\ payload !! "language"
         = Some (JString (if decide (language = "") then "en" else language))
      /\ payload !! "vad_filter" = Some (JString "false").
Proof.
  rewrite cf_run.
  destruct (bool_decide (Getenv w "CF_ACCOUNT_ID" = "")) eqn:Ha; [intros [] |].
  destruct (bool_decide (Getenv w "CF_API_KEY" = "")) eqn:Hk; [intros [] |].
  apply bool_decide_eq_false in Ha, Hk.
  cbn [orb]. cbv zeta. rewrite cf_transcribe_run.
  destruct (fs !! audioPath) as [content |]; [| intros []].
  destruct (NewRequest_err lib _); [intros [] |].
  unfold effects, final. cbn [fst snd In]. intros [[= <- <-] | []].
  split; [exact Ha |]. split; [exact Hk |].
  split; [reflexivity |]. split; [reflexivity |]. split; [reflexivity |].
  unfold CloudflareBackend.request, CloudflareBackend.NewCFTranscriber.
  cbn [ReqURL Header ReqBody BaseURL APIToken Model].
  split; [reflexivity |]. split; [reflexivity |].
  eexists. split; [reflexivity |]. unfold CloudflareBackend.payloadOf.
  cbn [Model].
  split; [do 3 (rewrite lookup_insert_ne by discriminate); apply lookup_insert_eq |].
  split; [rewrite lookup_insert_ne by discriminate; apply lookup_insert_eq |].
  apply lookup_insert_eq.
Qed.

Lemma CfTranscribe_requests_witness :
  ReqURL (CloudflareBackend.request
            (CloudflareBackend.NewCFTranscriber "acc42" "tok" "" "")
            (base64 "opus") "")
  = "https://api.cloudflare.com/client/v4/accounts/acc42/ai/run/@cf/openai/whisper-large-v3-turbo".
Proof.
  destruct (CfTranscribe_requests
              Sample.lib (Sample.world Sample.cfEnv 200 Sample.body_hello)
              "voice.ogg" "" "" Sample.disk 30%Z
              (CloudflareBackend.request
                 (CloudflareBackend.NewCFTranscriber "acc42" "tok" "" "")
                 (base64 "opus") ""))
    as (_ & _ & _ & _ & _ & Hurl & _).
  - vm_compute. left. reflexivity.
  - exact Hurl.
Defined.

(** X22.  [encodeAudioFile] reads and changes nothing else: it returns the
    read error for a missing file, and for a file of [n] bytes a text of
    [4 * ceil (n / 3)] characters, all letters, digits, [+], [/] or [=],
    that is empty only for the empty file. *)
Theorem encodeAudioFile_gives_base64_text
        (cf : CFTranscriber) (filePath : string) (fs : FS) :
  final (CloudflareBackend.encodeAudioFile cf filePath fs) = fs
  /\ effects (CloudflareBackend.encodeAudioFile cf filePath fs) = []
  /\ (fs !! filePath = None ->
      value (CloudflareBackend.encodeAudioFile cf filePath fs)
      = Err ("open " +:+ filePath +:+ ": no such file or directory"))
  /\ (forall content,
         fs !! filePath = Some content ->
         exists encoded,
           value (CloudflareBackend.encodeAudioFile cf filePath fs) = Ok encoded
           /\ String.length encoded = 4 * ((String.length content + 2) / 3)
           /\ Forall (fun c => isBase64Char c = true) (list_ascii_of_string encoded)
           /\ (encoded = "" <-> content = "")).
Proof.
  unfold CloudflareBackend.encodeAudioFile, bind, os_ReadFile, ret, value, final, effects.
  destruct (fs !! filePath) as [content |]; cbn [fst snd app].
  - repeat split; try discriminate.
    intros c [= <-]. exists (base64 content).
    split; [reflexivity |].
    split; [apply (proj1 (base64_length content)) |].
    split; [apply (base64_alphabet_below (S (String.length content))); lia |].
    apply (proj2 (base64_length content)).
  - repeat split; discriminate.
Qed.

